(** * FloatingTerminalButton: gesture handling, clamping and persistence

    A shallow embedding of the React component [FloatingTerminalButton]
    (frontend, floating terminal button) together with the parts of the
    browser it talks to: [localStorage], [JSON], the [window] listener
    registry and React's render/effect cycle.

    Conventions of the embedding.
    - JavaScript numbers are modelled by [Z].  Pointer coordinates
      ([clientX], [clientY]), [offsetWidth], [offsetHeight],
      [innerWidth] and [innerHeight] are integers in the DOM, and every
      number the component computes from them is an integer again.
      Fractions, [NaN], the loss of precision above 2^53 and the
      exponent notation of numbers from 10^21 on are outside the model.
    - Strings are [string]s of 8-bit code units.
    - The position restored from the store is any value that
      [JSON.parse] answers.  Mounting is modelled for all of them: the
      render that follows the load effect throws or not.  The handlers
      and [step] are modelled on positions with integer [x] and [y]
      only; on others, where the source goes on with [NaN] and string
      coercions, they answer [None], and the statements about a
      pointer-press or a pointer-move name that condition.
    - A closure created by a render is modelled by the [State] that the
      render saw: the handlers below take that captured state as their
      first argument. *)

From Stdlib Require Import ZArith List String Ascii Bool Lia.
Import ListNotations.
Local Open Scope string_scope.
Local Open Scope Z_scope.
Set Warnings "-register-all".

(** ** JavaScript values produced by [JSON.parse] *)

Inductive jsval : Type :=
| JNull
| JBool (b : bool)
| JNum (n : Z)
| JStr (s : string)
| JArr (l : list jsval)
| JObj (fields : list (string * jsval)).

(** The object literal [{ x: .., y: .. }]. *)
Definition Obj_xy (x y : Z) : jsval :=
  JObj [("x", JNum x); ("y", JNum y)].

Fixpoint assoc (k : string) (fs : list (string * jsval)) : option jsval :=
  match fs with
  | [] => None
  | (k', v) :: fs' => if String.eqb k k' then Some v else assoc k fs'
  end.

(** [v.k] for a non-null value: [None] is [undefined]. *)
Definition prop (v : jsval) (k : string) : option jsval :=
  match v with
  | JObj fs => assoc k fs
  | _ => None
  end.

(** [v.k] when it is a number. *)
Definition num_prop (v : jsval) (k : string) : option Z :=
  match prop v k with
  | Some (JNum n) => Some n
  | _ => None
  end.

(** ** Number to string conversion (decimal, as [Number.prototype.toString]
    prints an integer) *)

Definition digit_char (d : Z) : ascii := ascii_of_N (48 + Z.to_N d).

Fixpoint digits (fuel : nat) (n : Z) : string :=
  match fuel with
  | O => ""
  | S f =>
      if n <? 10 then String (digit_char n) ""
      else digits f (n / 10) ++ String (digit_char (n mod 10)) ""
  end.

Definition digits_fuel (n : Z) : nat := S (Z.to_nat (Z.log2 n)).

Definition Number_toString (n : Z) : string :=
  if n <? 0 then String "-" (digits (digits_fuel (- n)) (- n))
  else digits (digits_fuel n) n.

(** ** [JSON.stringify] *)

Definition dquote : ascii := ascii_of_N 34.
Definition backslash : ascii := ascii_of_N 92.

Definition hex_char (n : N) : ascii :=
  if (n <? 10)%N then ascii_of_N (48 + n) else ascii_of_N (87 + n).

Definition escape_char (c : ascii) : string :=
  let n := N_of_ascii c in
  if Ascii.eqb c dquote then String backslash (String dquote "")
  else if Ascii.eqb c backslash then String backslash (String backslash "")
  else if (n <? 32)%N then
    match n with
    | 8%N => String backslash "b"
    | 9%N => String backslash "t"
    | 10%N => String backslash "n"
    | 12%N => String backslash "f"
    | 13%N => String backslash "r"
    | _ => String backslash
             (String "u" (String "0" (String "0"
                (String (hex_char (n / 16)%N)
                   (String (hex_char (n mod 16)%N) "")))))
    end
  else String c "".

Fixpoint escape (s : string) : string :=
  match s with
  | "" => ""
  | String c r => escape_char c ++ escape r
  end.

Definition quote (s : string) : string :=
  String dquote (escape s ++ String dquote "").

Fixpoint join (sep : string) (l : list string) : string :=
  match l with
  | [] => ""
  | [a] => a
  | a :: l' => a ++ sep ++ join sep l'
  end.

Fixpoint JSON_stringify (v : jsval) : string :=
  match v with
  | JNull => "null"
  | JBool true => "true"
  | JBool false => "false"
  | JNum n => Number_toString n
  | JStr s => quote s
  | JArr l => "[" ++ join "," (map JSON_stringify l) ++ "]"
  | JObj fs =>
      "{" ++ join ","
               (map (fun kv => quote (fst kv) ++ ":" ++ JSON_stringify (snd kv)) fs)
          ++ "}"
  end.

(** ** [JSON.parse]

    The parser covers the JSON texts whose numbers are integer literals
    and whose strings have no escape sequence and no code unit above
    127, and whose objects have distinct keys, none starting with a
    digit.  On such a text it answers as [JSON.parse] does, numbers
    being read in [Z]: [Parsed v], or [SyntaxError] when [JSON.parse]
    throws.  As soon as it meets anything else (a fraction, an exponent,
    an escape, a repeated key ...) it answers [Unsupported], and the
    model says nothing. *)

Inductive parsed (A : Type) : Type :=
| POk (a : A) (rest : string)
| PSyntaxError
| PUnsupported.
Arguments POk {A} a rest.
Arguments PSyntaxError {A}.
Arguments PUnsupported {A}.

Definition is_ws (c : ascii) : bool :=
  Ascii.eqb c " " || Ascii.eqb c (ascii_of_N 9)
  || Ascii.eqb c (ascii_of_N 10) || Ascii.eqb c (ascii_of_N 13).

Definition is_digit (c : ascii) : bool :=
  (48 <=? N_of_ascii c)%N && (N_of_ascii c <=? 57)%N.

Definition digit_val (c : ascii) : Z := Z.of_N (N_of_ascii c) - 48.

Fixpoint skip_ws (s : string) : string :=
  match s with
  | String c r => if is_ws c then skip_ws r else s
  | "" => ""
  end.

Fixpoint parse_digits (acc : Z) (s : string) : Z * string :=
  match s with
  | String c r =>
      if is_digit c then parse_digits (10 * acc + digit_val c) r else (acc, s)
  | "" => (acc, "")
  end.

Definition starts_with (p : ascii -> bool) (s : string) : bool :=
  match s with
  | String c _ => p c
  | "" => false
  end.

Definition is_frac_or_exp (c : ascii) : bool :=
  Ascii.eqb c "." || Ascii.eqb c "e" || Ascii.eqb c "E".

(** What may follow a number in a JSON text without being read as part
    of it. *)
Definition ends_number (rest : string) : Prop :=
  starts_with is_digit rest = false /\ starts_with is_frac_or_exp rest = false.

(** An integer literal: an optional minus sign, then either a single
    zero or a non-zero digit followed by digits. *)
Definition parse_unsigned (s : string) : parsed Z :=
  match s with
  | String c r =>
      if is_digit c then
        if Ascii.eqb c "0" && starts_with is_digit r then PSyntaxError
        else
          let (n, rest) := parse_digits 0 s in
          if starts_with is_frac_or_exp rest then PUnsupported else POk n rest
      else PSyntaxError
  | "" => PSyntaxError
  end.

Definition parse_number (s : string) : parsed Z :=
  match s with
  | String c r =>
      if Ascii.eqb c "-" then
        match parse_unsigned r with
        | POk n rest => POk (- n) rest
        | e => e
        end
      else parse_unsigned s
  | "" => PSyntaxError
  end.

(** The characters of a string literal, after its opening quote. *)
Fixpoint parse_chars (s : string) : parsed string :=
  match s with
  | "" => PSyntaxError
  | String c r =>
      if Ascii.eqb c dquote then POk "" r
      else if Ascii.eqb c backslash then PUnsupported
      else if (N_of_ascii c <? 32)%N then PSyntaxError
      else if (128 <=? N_of_ascii c)%N then PUnsupported
      else
        match parse_chars r with
        | POk t rest => POk (String c t) rest
        | e => e
        end
  end.

(** A literal name ([true], [false], [null]). *)
Fixpoint expect (name : string) (s : string) : option string :=
  match name, s with
  | "", _ => Some s
  | String a name', String c r => if Ascii.eqb a c then expect name' r else None
  | String _ _, "" => None
  end.

Definition key_supported (k : string) (seen : list (string * jsval)) : bool :=
  negb (starts_with is_digit k)
  && match assoc k seen with None => true | Some _ => false end.

Fixpoint parse_value (fuel : nat) (s : string) {struct fuel} : parsed jsval :=
  match fuel with
  | O => PUnsupported
  | S f =>
      match skip_ws s with
      | "" => PSyntaxError
      | String c r =>
          if is_digit c || Ascii.eqb c "-" then
            match parse_number (String c r) with
            | POk n rest => POk (JNum n) rest
            | PSyntaxError => PSyntaxError
            | PUnsupported => PUnsupported
            end
          else if Ascii.eqb c dquote then
            match parse_chars r with
            | POk t rest => POk (JStr t) rest
            | PSyntaxError => PSyntaxError
            | PUnsupported => PUnsupported
            end
          else if Ascii.eqb c "[" then
            if starts_with (Ascii.eqb "]") (skip_ws r)
            then POk (JArr []) (match skip_ws r with String _ r' => r' | "" => "" end)
            else
              match parse_elements f [] r with
              | POk l rest => POk (JArr l) rest
              | PSyntaxError => PSyntaxError
              | PUnsupported => PUnsupported
              end
          else if Ascii.eqb c "{" then
            if starts_with (Ascii.eqb "}") (skip_ws r)
            then POk (JObj []) (match skip_ws r with String _ r' => r' | "" => "" end)
            else
              match parse_members f [] r with
              | POk fs rest => POk (JObj fs) rest
              | PSyntaxError => PSyntaxError
              | PUnsupported => PUnsupported
              end
          else if Ascii.eqb c "t" then
            match expect "rue" r with
            | Some rest => POk (JBool true) rest
            | None => PSyntaxError
            end
          else if Ascii.eqb c "f" then
            match expect "alse" r with
            | Some rest => POk (JBool false) rest
            | None => PSyntaxError
            end
          else if Ascii.eqb c "n" then
            match expect "ull" r with
            | Some rest => POk JNull rest
            | None => PSyntaxError
            end
          else PSyntaxError
      end
  end

with parse_elements (fuel : nat) (acc : list jsval) (s : string)
       {struct fuel} : parsed (list jsval) :=
  match fuel with
  | O => PUnsupported
  | S f =>
      match parse_value f s with
      | POk v rest =>
          match skip_ws rest with
          | String c r =>
              if Ascii.eqb c "," then parse_elements f (acc ++ [v])%list r
              else if Ascii.eqb c "]" then POk (acc ++ [v])%list r
              else PSyntaxError
          | "" => PSyntaxError
          end
      | PSyntaxError => PSyntaxError
      | PUnsupported => PUnsupported
      end
  end

with parse_members (fuel : nat) (acc : list (string * jsval)) (s : string)
       {struct fuel} : parsed (list (string * jsval)) :=
  match fuel with
  | O => PUnsupported
  | S f =>
      match skip_ws s with
      | "" => PSyntaxError
      | String q r =>
          if Ascii.eqb q dquote then
            match parse_chars r with
            | POk k rest =>
                match skip_ws rest with
                | "" => PSyntaxError
                | String c r2 =>
                    if Ascii.eqb c ":" then
                      match parse_value f r2 with
                      | POk v rest2 =>
                          if key_supported k acc then
                            match skip_ws rest2 with
                            | String c2 r3 =>
                                if Ascii.eqb c2 ","
                                then parse_members f (acc ++ [(k, v)])%list r3
                                else if Ascii.eqb c2 "}"
                                then POk (acc ++ [(k, v)])%list r3
                                else PSyntaxError
                            | "" => PSyntaxError
                            end
                          else PUnsupported
                      | PSyntaxError => PSyntaxError
                      | PUnsupported => PUnsupported
                      end
                    else PSyntaxError
                end
            | PSyntaxError => PSyntaxError
            | PUnsupported => PUnsupported
            end
          else PSyntaxError
      end
  end.

Inductive parse_result : Type :=
| Parsed (v : jsval)
| SyntaxError
| Unsupported.

Definition JSON_parse (s : string) : parse_result :=
  match parse_value (S (String.length s)) s with
  | POk v rest =>
      match skip_ws rest with
      | "" => Parsed v
      | String _ _ => SyntaxError
      end
  | PSyntaxError => SyntaxError
  | PUnsupported => Unsupported
  end.

(** ** [localStorage]

    A key/value store of strings with a size limit: [setItem] throws a
    [QuotaExceededError] when the store would grow beyond its quota. *)

Record Storage : Type := {
  items : list (string * string);
  quota : N
}.

Fixpoint getItem_in (l : list (string * string)) (k : string) : option string :=
  match l with
  | [] => None
  | (k', v) :: l' => if String.eqb k k' then Some v else getItem_in l' k
  end.

Fixpoint setItem_in (l : list (string * string)) (k v : string)
  : list (string * string) :=
  match l with
  | [] => [(k, v)]
  | (k', v') :: l' =>
      if String.eqb k k' then (k, v) :: l' else (k', v') :: setItem_in l' k v
  end.

Fixpoint usage (l : list (string * string)) : N :=
  match l with
  | [] => 0%N
  | (k, v) :: l' =>
      (N.of_nat (String.length k) + N.of_nat (String.length v) + usage l')%N
  end.

(** [localStorage.getItem(k)]: [None] is [null]. *)
Definition getItem (ls : Storage) (k : string) : option string :=
  getItem_in (items ls) k.

(** [localStorage.setItem(k, v)]: [None] when it throws. *)
Definition setItem (ls : Storage) (k v : string) : option Storage :=
  let l := setItem_in (items ls) k v in
  if N.leb (usage l) (quota ls)
  then Some {| items := l; quota := quota ls |}
  else None.

Definition terminalButtonPosition : string := "terminalButtonPosition".

(** ** The component's state and its surroundings *)

Record Position : Type := { x : Z; y : Z }.

(** The four [useState] cells.  [initialPos_id] is the identity of the
    object held by [initialPos]: the dependency array of the listener
    effect compares it with [Object.is]. *)
Record State : Type := {
  isHovered : bool;
  position : jsval;
  isDragging : bool;
  initialPos : Position;
  initialPos_id : nat
}.

Record MouseEvent : Type := { button : Z; clientX : Z; clientY : Z }.

Record HTMLButtonElement : Type := { offsetWidth : Z; offsetHeight : Z }.

(** What [handleMouseMove] reads from the page when it runs. *)
Record Page : Type := {
  innerWidth : Z;
  innerHeight : Z;
  buttonRef_current : option HTMLButtonElement
}.

(** What a handler does, in order: state setters, and calls to the
    outside. *)
Inductive Action : Type :=
| setIsHovered (b : bool)
| setPosition (v : jsval)
| setIsDragging (b : bool)
| setInitialPos (p : Position)
| navigate (to : string)
| preventDefault
| localStorage_setItem (k v : string)
| console_error (msg : string).

(** [n || 0] for an optional number ([undefined || 0] is [0]). *)
Definition or_zero (n : option Z) : Z :=
  match n with
  | Some n => if n =? 0 then 0 else n
  | None => 0
  end.

(** The first effect: restore the saved position.  [parse] stands for
    [JSON.parse]; the effect is [None] when [parse] answers
    [Unsupported]. *)
Definition load_effect_with (parse : string -> parse_result) (ls : Storage)
  : option (list Action) :=
  match getItem ls terminalButtonPosition with
  | Some savedPosition =>
      if Nat.eqb (String.length savedPosition) 0 then Some []
      else
        match parse savedPosition with
        | Parsed parsedPosition => Some [setPosition parsedPosition]
        | SyntaxError => Some [console_error "Failed to parse saved position"]
        | Unsupported => None
        end
  | None => Some []
  end.

(** The effect with the parser of the model. *)
Definition load_effect (ls : Storage) : option (list Action) :=
  load_effect_with JSON_parse ls.

Definition handleClick (r : State) : list Action :=
  if negb (isDragging r) then [navigate "terminal"] else [].

Definition handleKeyDown (r : State) (key : string) : list Action :=
  if String.eqb key "Enter" || String.eqb key " "
  then preventDefault :: handleClick r
  else [].

(** [None] when [position.x] or [position.y] is not a number: the
    subtraction then leaves the integers. *)
Definition handleMouseDown (r : State) (e : MouseEvent) : option (list Action) :=
  if negb (button e =? 0) then Some []
  else
    match num_prop (position r) "x", num_prop (position r) "y" with
    | Some px, Some py =>
        Some [ setIsDragging true;
               setInitialPos {| x := clientX e - px; y := clientY e - py |};
               preventDefault ]
    | _, _ => None
    end.

Definition handleMouseMove (r : State) (pg : Page) (e : MouseEvent) : list Action :=
  if negb (isDragging r) then []
  else
    let newX := clientX e - x (initialPos r) in
    let newY := clientY e - y (initialPos r) in
    let buttonWidth := or_zero (option_map offsetWidth (buttonRef_current pg)) in
    let buttonHeight := or_zero (option_map offsetHeight (buttonRef_current pg)) in
    let maxX := innerWidth pg - buttonWidth in
    let maxY := innerHeight pg - buttonHeight in
    let boundedX := Z.max 0 (Z.min newX maxX) in
    let boundedY := Z.max 0 (Z.min newY maxY) in
    [setPosition (Obj_xy boundedX boundedY)].

Definition handleMouseUp (r : State) : list Action :=
  if isDragging r
  then [ setIsDragging false;
         localStorage_setItem terminalButtonPosition (JSON_stringify (position r)) ]
  else [].

Record CSSProperties : Type := {
  css_position : string;
  bottom : string;
  right : string;
  top : string;
  left : string;
  cursor : string;
  zIndex : Z
}.

(** Whether [v.x] and [v.y] are numbers. *)
Definition has_coords (v : jsval) : bool :=
  match num_prop v "x", num_prop v "y" with
  | Some _, Some _ => true
  | _, _ => false
  end.

(** The style computed by a render.  [None] when [position.x] or
    [position.y] is not a number (the render then throws, for [null], or
    builds its lengths from string coercions that are outside the
    model). *)
Definition buttonStyle (r : State) : option CSSProperties :=
  match num_prop (position r) "x", num_prop (position r) "y" with
  | Some px, Some py =>
      Some {| css_position := "fixed";
              bottom := if py =? 0 then "1.5rem" else "auto";
              right := if px =? 0 then "1.5rem" else "auto";
              top := if negb (py =? 0) then Number_toString py ++ "px" else "auto";
              left := if negb (px =? 0) then Number_toString px ++ "px" else "auto";
              cursor := if isDragging r then "grabbing" else "grab";
              zIndex := 50 |}
  | _, _ => None
  end.

(** ** The page around the component: listeners, storage, effects *)

Inductive Exception : Type := QuotaExceededError | TypeError.

(** What the component did to the outside, in order. *)
Inductive Effect : Type :=
| Navigated (to : string)
| DefaultPrevented
| SetItemCalled (k v : string)
| ErrorLogged (msg : string)
| Uncaught (e : Exception).

(** The handlers a render created, identified by the render. *)
Record Closure : Type := { render : nat; captured : State }.

Record World : Type := {
  mounted : bool;
  state : State;
  effect_render : nat;
  effect_deps : bool * nat;
  mousemove_listeners : list Closure;
  mouseup_listeners : list Closure;
  localStorage : Storage;
  next_id : nat;
  log : list Effect
}.

Definition with_state (w : World) (s : State) : World :=
  {| mounted := mounted w; state := s; effect_render := effect_render w;
     effect_deps := effect_deps w;
     mousemove_listeners := mousemove_listeners w;
     mouseup_listeners := mouseup_listeners w;
     localStorage := localStorage w; next_id := next_id w; log := log w |}.

Definition with_log (w : World) (l : list Effect) : World :=
  {| mounted := mounted w; state := state w; effect_render := effect_render w;
     effect_deps := effect_deps w;
     mousemove_listeners := mousemove_listeners w;
     mouseup_listeners := mouseup_listeners w;
     localStorage := localStorage w; next_id := next_id w; log := l |}.

Definition emit (w : World) (e : Effect) : World :=
  with_log w (log w ++ [e])%list.

Definition with_storage (w : World) (ls : Storage) : World :=
  {| mounted := mounted w; state := state w; effect_render := effect_render w;
     effect_deps := effect_deps w;
     mousemove_listeners := mousemove_listeners w;
     mouseup_listeners := mouseup_listeners w;
     localStorage := ls; next_id := next_id w; log := log w |}.

Definition with_listeners (w : World) (mm mu : list Closure) : World :=
  {| mounted := mounted w; state := state w; effect_render := effect_render w;
     effect_deps := effect_deps w;
     mousemove_listeners := mm;
     mouseup_listeners := mu;
     localStorage := localStorage w; next_id := next_id w; log := log w |}.

Definition with_next_id (w : World) (n : nat) : World :=
  {| mounted := mounted w; state := state w; effect_render := effect_render w;
     effect_deps := effect_deps w;
     mousemove_listeners := mousemove_listeners w;
     mouseup_listeners := mouseup_listeners w;
     localStorage := localStorage w; next_id := n; log := log w |}.

Definition with_effect (w : World) (rid : nat) (deps : bool * nat) : World :=
  {| mounted := mounted w; state := state w; effect_render := rid;
     effect_deps := deps;
     mousemove_listeners := mousemove_listeners w;
     mouseup_listeners := mouseup_listeners w;
     localStorage := localStorage w; next_id := next_id w; log := log w |}.

Definition with_mounted (w : World) (b : bool) : World :=
  {| mounted := b; state := state w; effect_render := effect_render w;
     effect_deps := effect_deps w;
     mousemove_listeners := mousemove_listeners w;
     mouseup_listeners := mouseup_listeners w;
     localStorage := localStorage w; next_id := next_id w; log := log w |}.

Definition set_isHovered (s : State) (b : bool) : State :=
  {| isHovered := b; position := position s; isDragging := isDragging s;
     initialPos := initialPos s; initialPos_id := initialPos_id s |}.

Definition set_position (s : State) (v : jsval) : State :=
  {| isHovered := isHovered s; position := v; isDragging := isDragging s;
     initialPos := initialPos s; initialPos_id := initialPos_id s |}.

Definition set_isDragging (s : State) (b : bool) : State :=
  {| isHovered := isHovered s; position := position s; isDragging := b;
     initialPos := initialPos s; initialPos_id := initialPos_id s |}.

Definition set_initialPos (s : State) (p : Position) (id : nat) : State :=
  {| isHovered := isHovered s; position := position s; isDragging := isDragging s;
     initialPos := p; initialPos_id := id |}.

(** Runs the actions of one handler.  A setter replaces the cell in the
    current state; [setInitialPos] is always called with a new object.
    When [setItem] throws, the exception leaves the handler: what
    follows in it is skipped, and the exception is uncaught. *)
Fixpoint exec (w : World) (acts : list Action) : World :=
  match acts with
  | [] => w
  | a :: rest =>
      match a with
      | setIsHovered b => exec (with_state w (set_isHovered (state w) b)) rest
      | setPosition v => exec (with_state w (set_position (state w) v)) rest
      | setIsDragging b => exec (with_state w (set_isDragging (state w) b)) rest
      | setInitialPos p =>
          let w1 := with_state w (set_initialPos (state w) p (next_id w)) in
          exec (with_next_id w1 (S (next_id w))) rest
      | navigate to => exec (emit w (Navigated to)) rest
      | preventDefault => exec (emit w DefaultPrevented) rest
      | console_error msg => exec (emit w (ErrorLogged msg)) rest
      | localStorage_setItem k v =>
          let w1 := emit w (SetItemCalled k v) in
          match setItem (localStorage w1) k v with
          | Some ls => exec (with_storage w1 ls) rest
          | None => emit w1 (Uncaught QuotaExceededError)
          end
      end
  end.

(** [window.addEventListener]: a function already registered is not
    registered twice. *)
Definition addEventListener (l : list Closure) (c : Closure) : list Closure :=
  if existsb (fun c' => Nat.eqb (render c') (render c)) l then l
  else (l ++ [c])%list.

Definition removeEventListener (l : list Closure) (rid : nat) : list Closure :=
  filter (fun c' => negb (Nat.eqb (render c') rid)) l.

(** The body of the listener effect, for the handlers of render [c]. *)
Definition listener_effect (w : World) (c : Closure) : World :=
  if isDragging (captured c)
  then with_listeners w (addEventListener (mousemove_listeners w) c)
                        (addEventListener (mouseup_listeners w) c)
  else w.

(** Its cleanup, for the handlers of render [rid]. *)
Definition listener_cleanup (w : World) (rid : nat) : World :=
  with_listeners w (removeEventListener (mousemove_listeners w) rid)
                   (removeEventListener (mouseup_listeners w) rid).

Definition deps_of (s : State) : bool * nat := (isDragging s, initialPos_id s).

Definition deps_eqb (a b : bool * nat) : bool :=
  Bool.eqb (fst a) (fst b) && Nat.eqb (snd a) (snd b).

(** The render that follows an event, and its effects: the listener
    effect runs again, after the cleanup of its previous run, only when
    [isDragging] or [initialPos] changed. *)
Definition commit (w : World) : World :=
  let rid := next_id w in
  if deps_eqb (deps_of (state w)) (effect_deps w)
  then with_next_id w (S rid)
  else
    let w1 := listener_cleanup w (effect_render w) in
    let w2 := listener_effect w1 {| render := rid; captured := state w |} in
    with_next_id (with_effect w2 rid (deps_of (state w))) (S rid).

Definition initial_state : State :=
  {| isHovered := false; position := Obj_xy 0 0; isDragging := false;
     initialPos := {| x := 0; y := 0 |}; initialPos_id := 0 |}.

(** Whether [v + 'px'] throws: the conversion of an object to a
    primitive finds no callable [toString] when the object has a
    property of that name (a value from [JSON.parse] is never a
    function); an array is joined, each element converted in turn. *)
Fixpoint coercion_throws (v : jsval) : bool :=
  match v with
  | JObj fs => match assoc "toString" fs with Some _ => true | None => false end
  | JArr l => existsb coercion_throws l
  | _ => false
  end.

(** Whether the render throws a [TypeError] while it builds
    [buttonStyle]: [position.y] of [null], or a coordinate that cannot
    be joined to ['px']. *)
Definition render_throws (r : State) : bool :=
  match position r with
  | JNull => true
  | v =>
      match prop v "y" with Some vy => coercion_throws vy | None => false end
      || match prop v "x" with Some vx => coercion_throws vx | None => false end
  end.

(** A render that throws removes the component: the cleanup of its
    effect runs, and the error is not caught by the component. *)
Definition crash (w : World) : World :=
  emit (with_mounted (listener_cleanup w (effect_render w)) false)
       (Uncaught TypeError).

(** Mounting: the first render, then both effects in the order of the
    source, then the render that a restored position asks for.  When
    that render throws the component is removed; when it does not, but
    the position has no numeric coordinates, the world is mounted and
    [step] says nothing about it. *)
Definition mount_with (parse : string -> parse_result) (ls : Storage)
  : option World :=
  match load_effect_with parse ls with
  | None => None
  | Some acts =>
      let w0 :=
        {| mounted := true; state := initial_state;
           effect_render := 0; effect_deps := deps_of initial_state;
           mousemove_listeners := []; mouseup_listeners := [];
           localStorage := ls; next_id := 1; log := [] |} in
      let w1 := exec w0 acts in
      let w2 := listener_effect w1 {| render := 0; captured := initial_state |} in
      if render_throws (state w2) then Some (crash w2) else Some (commit w2)
  end.

(** Mounting with the parser of the model. *)
Definition mount (ls : Storage) : option World := mount_with JSON_parse ls.

(** What happens to the component.  [MouseDown], [Click], [KeyDown],
    [MouseEnter], [MouseLeave], [Focus] and [Blur] are events of the
    button ([onMouseDown], [onClick], ...); the browser sends [Click]
    after a press and a release that both hit the button.
    [WindowMouseMove] and [WindowMouseUp] are the [mousemove] and
    [mouseup] events of [window]; a move comes with the sizes on the
    page at that time.  [Unmount] removes the component. *)
Inductive Event : Type :=
| MouseDown (e : MouseEvent)
| Click
| KeyDown (key : string)
| MouseEnter
| MouseLeave
| Focus
| Blur
| WindowMouseMove (pg : Page) (e : MouseEvent)
| WindowMouseUp
| Unmount.

(** One event.  The events of the button reach the handlers of the
    latest render, those of [window] the registered listeners.  [None]
    when the component is mounted on a position without numeric
    coordinates, which the model does not render. *)
Definition step (w : World) (ev : Event) : option World :=
  if mounted w then
    match buttonStyle (state w) with
    | None => None
    | Some _ =>
        match ev with
        | MouseDown e =>
            match handleMouseDown (state w) e with
            | Some acts => Some (commit (exec w acts))
            | None => None
            end
        | Click => Some (commit (exec w (handleClick (state w))))
        | KeyDown key => Some (commit (exec w (handleKeyDown (state w) key)))
        | MouseEnter | Focus => Some (commit (exec w [setIsHovered true]))
        | MouseLeave | Blur => Some (commit (exec w [setIsHovered false]))
        | WindowMouseMove pg e =>
            Some (commit (exec w
              (flat_map (fun c => handleMouseMove (captured c) pg e)
                        (mousemove_listeners w))))
        | WindowMouseUp =>
            Some (commit (exec w
              (flat_map (fun c => handleMouseUp (captured c))
                        (mouseup_listeners w))))
        | Unmount =>
            Some (with_mounted (listener_cleanup w (effect_render w)) false)
        end
    end
  else
    match ev with
    | WindowMouseMove pg e =>
        Some (exec w
          (flat_map (fun c => handleMouseMove (captured c) pg e)
                    (mousemove_listeners w)))
    | WindowMouseUp =>
        Some (exec w
          (flat_map (fun c => handleMouseUp (captured c))
                    (mouseup_listeners w)))
    | _ => Some w
    end.

Fixpoint run (w : World) (tr : list Event) : option World :=
  match tr with
  | [] => Some w
  | ev :: tr' =>
      match step w ev with
      | Some w' => run w' tr'
      | None => None
      end
  end.

(** A whole session: mount on a storage, then the events. *)
Definition session (ls : Storage) (tr : list Event) : option World :=
  match mount ls with
  | Some w => run w tr
  | None => None
  end.

Definition navigations (l : list Effect) : list string :=
  flat_map (fun e => match e with Navigated to => [to] | _ => [] end) l.

Definition writes (l : list Effect) : list string :=
  flat_map (fun e => match e with SetItemCalled _ v => [v] | _ => [] end) l.

(** ** The invariant of the page: the listener registry follows
    [isDragging] *)

(** While the control is mounted and dragging, [window] has exactly the
    handlers of the render in which the listener effect last ran; they
    captured [isDragging = true] and the current [initialPos].
    Otherwise it has none. *)
Definition listeners_of (w : World) : Prop :=
  if mounted w && isDragging (state w)
  then exists c,
      mousemove_listeners w = [c] /\ mouseup_listeners w = [c]
      /\ render c = effect_render w
      /\ isDragging (captured c) = true
      /\ initialPos (captured c) = initialPos (state w)
  else mousemove_listeners w = [] /\ mouseup_listeners w = [].

Record Inv (w : World) : Prop := {
  inv_deps : effect_deps w = deps_of (state w);
  inv_fresh : (initialPos_id (state w) < next_id w)%nat;
  inv_listeners : listeners_of w;
  inv_numeric : isDragging (state w) = true -> has_coords (position (state w)) = true
}.

(** ** Relations between worlds used in the statements *)

(** Events that leave [isDragging] and [initialPos] alone. *)
Definition same_drag (w0 w1 : World) : Prop :=
  mounted w1 = mounted w0
  /\ isDragging (state w1) = isDragging (state w0)
  /\ initialPos (state w1) = initialPos (state w0)
  /\ initialPos_id (state w1) = initialPos_id (state w0)
  /\ effect_render w1 = effect_render w0
  /\ effect_deps w1 = effect_deps w0
  /\ mousemove_listeners w1 = mousemove_listeners w0
  /\ mouseup_listeners w1 = mouseup_listeners w0
  /\ next_id w1 = next_id w0.

(** What a release leaves in the store and in the log when it writes
    [v]: the write succeeded, or [setItem] threw. *)
Definition release_outcome (w w2 : World) (v : string) : Prop :=
  match setItem (localStorage w) terminalButtonPosition v with
  | Some ls =>
      localStorage w2 = ls
      /\ log w2 = (log w ++ [SetItemCalled terminalButtonPosition v])%list
  | None =>
      localStorage w2 = localStorage w
      /\ log w2 = (log w ++ [SetItemCalled terminalButtonPosition v;
                             Uncaught QuotaExceededError])%list
  end.

(** What the component did between two worlds. *)
Definition effects_since (w w' : World) : list Effect :=
  skipn (List.length (log w)) (log w').

(** ** Pages, events, stores and worlds of the examples *)

(** An empty store with the usual quota of five million characters. *)
Definition empty_storage : Storage := {| items := []; quota := 5000000 |}.

(** A store that holds [text] under the key of the component. *)
Definition storage_with (text : string) : Storage :=
  {| items := [(terminalButtonPosition, text)]; quota := 5000000 |}.

(** A store with no room left. *)
Definition full_storage : Storage := {| items := []; quota := 0 |}.

(** [s] between double quotes. *)
Definition in_quotes (s : string) : string := String dquote (s ++ String dquote "").

(** The text [{"x":"left","y":10}]: well-formed JSON whose [x] is not
    a number. *)
Definition payload_x_left : string :=
  "{" ++ in_quotes "x" ++ ":" ++ in_quotes "left" ++ ","
      ++ in_quotes "y" ++ ":10}".

(** The text [{"x":12,] : not JSON. *)
Definition payload_truncated : string := "{" ++ in_quotes "x" ++ ":12,".


(** A page of 1000 x 800 on which the control measures 48 x 48. *)
Definition page_1000x800 : Page :=
  {| innerWidth := 1000; innerHeight := 800;
     buttonRef_current := Some {| offsetWidth := 48; offsetHeight := 48 |} |}.


(** A mouse event of the primary button at client ([cx], [cy]). *)
Definition primary (cx cy : Z) : MouseEvent :=
  {| button := 0; clientX := cx; clientY := cy |}.

(** A drag from the default corner of a page of 1000 x 800, where the
    control of 48 x 48 sits 24 from the right and the bottom edge. *)
Definition first_drag : list Event :=
  [MouseDown (primary 940 740);
   WindowMouseMove page_1000x800 (primary 990 790);
   WindowMouseUp].

(** A drag of the control from (50, 50). *)
Definition second_drag : list Event :=
  [MouseDown (primary 60 60);
   WindowMouseMove page_1000x800 (primary 160 260);
   WindowMouseUp].

(** Renders of the control at rest and in a drag. *)
Definition state_at (px py : Z) : State :=
  {| isHovered := false; position := Obj_xy px py; isDragging := false;
     initialPos := {| x := 0; y := 0 |}; initialPos_id := 0 |}.

Definition dragging_from_origin : State :=
  {| isHovered := true; position := Obj_xy 0 0; isDragging := true;
     initialPos := {| x := 940; y := 740 |}; initialPos_id := 1 |}.

(** The world after mounting on the empty store. *)
Definition idle_world : World :=
  {| mounted := true; state := initial_state;
     effect_render := 0; effect_deps := (false, 0%nat);
     mousemove_listeners := []; mouseup_listeners := [];
     localStorage := empty_storage; next_id := 2; log := [] |}.

(** The world after a press on the control at its default corner, at
    client (940, 740). *)
Definition dragging_world : World :=
  {| mounted := true;
     state := {| isHovered := false; position := Obj_xy 0 0; isDragging := true;
                 initialPos := {| x := 940; y := 740 |}; initialPos_id := 2 |};
     effect_render := 3; effect_deps := (true, 2%nat);
     mousemove_listeners :=
       [{| render := 3;
           captured := {| isHovered := false; position := Obj_xy 0 0;
                          isDragging := true;
                          initialPos := {| x := 940; y := 740 |};
                          initialPos_id := 2 |} |}];
     mouseup_listeners :=
       [{| render := 3;
           captured := {| isHovered := false; position := Obj_xy 0 0;
                          isDragging := true;
                          initialPos := {| x := 940; y := 740 |};
                          initialPos_id := 2 |} |}];
     localStorage := empty_storage; next_id := 4; log := [DefaultPrevented] |}.

(** The same press when the store has no room left. *)
Definition dragging_on_full_storage : World :=
  {| mounted := true;
     state := {| isHovered := false; position := Obj_xy 0 0; isDragging := true;
                 initialPos := {| x := 940; y := 740 |}; initialPos_id := 2 |};
     effect_render := 3; effect_deps := (true, 2%nat);
     mousemove_listeners :=
       [{| render := 3;
           captured := {| isHovered := false; position := Obj_xy 0 0;
                          isDragging := true;
                          initialPos := {| x := 940; y := 740 |};
                          initialPos_id := 2 |} |}];
     mouseup_listeners :=
       [{| render := 3;
           captured := {| isHovered := false; position := Obj_xy 0 0;
                          isDragging := true;
                          initialPos := {| x := 940; y := 740 |};
                          initialPos_id := 2 |} |}];
     localStorage := full_storage; next_id := 4; log := [DefaultPrevented] |}.

(** ** The claims that fail, as the specification states them *)

(** The claim as the specification states it. *)
Definition click_navigates_without_write (w w' : World) : Prop :=
  navigations (effects_since w w') = ["terminal"]
  /\ writes (effects_since w w') = [].

(** The position was not restored: the control is mounted on the
    sentinel, and nothing was thrown. *)
Definition load_reports_absent (ls : Storage) : Prop :=
  exists w,
    mount ls = Some w
    /\ position (state w) = Obj_xy 0 0
    /\ forall e, ~ In (Uncaught e) (log w).

(** The claim as the specification states it: an activation key
    navigates once, writes nothing and has its default suppressed. *)
Definition keyboard_activation_navigates (w : World) (key : string) : Prop :=
  exists w',
    step w (KeyDown key) = Some w'
    /\ navigations (skipn (List.length (log w)) (log w')) = ["terminal"]
    /\ writes (skipn (List.length (log w)) (log w')) = []
    /\ In DefaultPrevented (skipn (List.length (log w)) (log w')).

(** The claim as the specification states it: nothing is thrown out of
    the release, and the failure is logged. *)
Definition failure_swallowed_and_logged (w w' : World) : Prop :=
  (forall e, ~ In (Uncaught e) (effects_since w w'))
  /\ exists msg, In (ErrorLogged msg) (effects_since w w').


(** ** The rest of the render

    The tooltip and the class of the button.  [t] is the translation
    function of [useTranslation], [label_key] the key
    [I18nKey.WORKSPACE$TERMINAL_TAB_LABEL], which is declared outside
    these sources, and [className] the property of the component. *)

(** The fixed part of the class of the button, up to the scale. *)
Definition base_class : string :=
  "p-3 rounded-full bg-tertiary border border-neutral-600 shadow-lg hover:bg-tertiary-dark focus:outline-none focus:ring-2 focus:ring-offset-2 focus:ring-tertiary-light transition-all duration-200 ".

Section Render.
Variable t : string -> string.
Variable label_key : string.
Variable className : string.

Definition tooltip_content (r : State) : string :=
  if isDragging r then t "Drag to reposition" else t label_key.

Definition button_className (r : State) : string :=
  base_class
  ++ (if isHovered r && negb (isDragging r) then "scale-110" else "scale-100")
  ++ " " ++ className.

Definition aria_label : string := t label_key.
End Render.

(** ** What an event makes the handlers do

    [event_actions w ev acts]: in the mounted world [w], whose registry
    satisfies the invariant, the handlers that [ev] reaches perform
    [acts]. *)

Definition maxX (pg : Page) : Z :=
  innerWidth pg - or_zero (option_map offsetWidth (buttonRef_current pg)).

Definition maxY (pg : Page) : Z :=
  innerHeight pg - or_zero (option_map offsetHeight (buttonRef_current pg)).

Inductive event_actions (w : World) : Event -> list Action -> Prop :=
| ea_down_other (e : MouseEvent) :
    button e <> 0 -> event_actions w (MouseDown e) []
| ea_down_primary (e : MouseEvent) (px py : Z) :
    button e = 0 ->
    num_prop (position (state w)) "x" = Some px ->
    num_prop (position (state w)) "y" = Some py ->
    event_actions w (MouseDown e)
      [setIsDragging true;
       setInitialPos {| x := clientX e - px; y := clientY e - py |};
       preventDefault]
| ea_click : event_actions w Click (handleClick (state w))
| ea_key (key : string) : event_actions w (KeyDown key) (handleKeyDown (state w) key)
| ea_enter : event_actions w MouseEnter [setIsHovered true]
| ea_focus : event_actions w Focus [setIsHovered true]
| ea_leave : event_actions w MouseLeave [setIsHovered false]
| ea_blur : event_actions w Blur [setIsHovered false]
| ea_move_drag (pg : Page) (e : MouseEvent) (c : Closure) :
    isDragging (state w) = true ->
    mousemove_listeners w = [c] -> mouseup_listeners w = [c] ->
    event_actions w (WindowMouseMove pg e)
      [setPosition
         (Obj_xy (Z.max 0 (Z.min (clientX e - x (initialPos (state w))) (maxX pg)))
                 (Z.max 0 (Z.min (clientY e - y (initialPos (state w))) (maxY pg))))]
| ea_move_idle (pg : Page) (e : MouseEvent) :
    isDragging (state w) = false -> event_actions w (WindowMouseMove pg e) []
| ea_up_drag (c : Closure) :
    isDragging (state w) = true ->
    mousemove_listeners w = [c] -> mouseup_listeners w = [c] ->
    event_actions w WindowMouseUp
      [setIsDragging false;
       localStorage_setItem terminalButtonPosition
         (JSON_stringify (position (captured c)))]
| ea_up_idle :
    isDragging (state w) = false -> event_actions w WindowMouseUp [].

(** ** Counting events and effects *)

Definition is_release (ev : Event) : bool :=
  match ev with WindowMouseUp => true | _ => false end.

Definition is_activation (ev : Event) : bool :=
  match ev with
  | Click => true
  | KeyDown key => String.eqb key "Enter" || String.eqb key " "
  | _ => false
  end.

Definition is_hover (ev : Event) : option bool :=
  match ev with
  | MouseEnter | Focus => Some true
  | MouseLeave | Blur => Some false
  | _ => None
  end.

(** Every write goes to the key of the component, every navigation to
    ["terminal"]. *)
Definition disciplined (e : Effect) : Prop :=
  match e with
  | SetItemCalled k _ => k = terminalButtonPosition
  | Navigated to => to = "terminal"
  | _ => True
  end.

(** Every move of the trace sees the page [pg]. *)
Definition moves_on (pg : Page) (tr : list Event) : Prop :=
  forall pg' e, In (WindowMouseMove pg' e) tr -> pg' = pg.

(** A position inside what the clamp allows on [pg]. *)
Definition inside (pg : Page) (v : jsval) : Prop :=
  exists a b,
    v = Obj_xy a b /\ 0 <= a <= Z.max 0 (maxX pg) /\ 0 <= b <= Z.max 0 (maxY pg).

Definition non_negative (v : jsval) : Prop :=
  exists a b, num_prop v "x" = Some a /\ num_prop v "y" = Some b /\ 0 <= a /\ 0 <= b.

(** ** Events, stores and worlds of the further examples *)

(** A mouse event of the secondary button. *)
Definition secondary (cx cy : Z) : MouseEvent :=
  {| button := 2; clientX := cx; clientY := cy |}.

(** The world after the press at (940, 740) and a move to (990, 790) on
    the page of 1000 x 800. *)
Definition moved_world : World :=
  {| mounted := true;
     state := {| isHovered := false; position := Obj_xy 50 50; isDragging := true;
                 initialPos := {| x := 940; y := 740 |}; initialPos_id := 2 |};
     effect_render := 3; effect_deps := (true, 2%nat);
     mousemove_listeners := mousemove_listeners dragging_world;
     mouseup_listeners := mouseup_listeners dragging_world;
     localStorage := empty_storage; next_id := 5; log := [DefaultPrevented] |}.

(** The world after a click on the idle control. *)
Definition clicked_world : World :=
  {| mounted := true; state := initial_state;
     effect_render := 0; effect_deps := (false, 0%nat);
     mousemove_listeners := []; mouseup_listeners := [];
     localStorage := empty_storage; next_id := 3;
     log := [Navigated "terminal"] |}.

(** A store in which another part of the application keeps a key. *)
Definition shared_storage : Storage :=
  {| items := [("theme", "dark")]; quota := 5000000 |}.

(** The world after a press and a release on that store. *)
Definition released_on_shared_storage : World :=
  {| mounted := true;
     state := {| isHovered := false; position := Obj_xy 0 0; isDragging := false;
                 initialPos := {| x := 940; y := 740 |}; initialPos_id := 2 |};
     effect_render := 4; effect_deps := (false, 2%nat);
     mousemove_listeners := []; mouseup_listeners := [];
     localStorage :=
       {| items := [("theme", "dark");
                    (terminalButtonPosition, JSON_stringify (Obj_xy 0 0))];
          quota := 5000000 |};
     next_id := 5;
     log := [DefaultPrevented;
             SetItemCalled terminalButtonPosition (JSON_stringify (Obj_xy 0 0))] |}.

(** The pointer-moves of a drag, as events of [window]. *)
Definition moves_of (moves : list (Page * MouseEvent)) : list Event :=
  map (fun m => WindowMouseMove (fst m) (snd m)) moves.

(** The world after the pointer enters the control during the drag. *)
Definition hovered_dragging_world : World :=
  {| mounted := true;
     state := {| isHovered := true; position := Obj_xy 0 0; isDragging := true;
                 initialPos := {| x := 940; y := 740 |}; initialPos_id := 2 |};
     effect_render := 3; effect_deps := (true, 2%nat);
     mousemove_listeners := mousemove_listeners dragging_world;
     mouseup_listeners := mouseup_listeners dragging_world;
     localStorage := empty_storage; next_id := 5; log := [DefaultPrevented] |}.

(** The world after the component is unmounted in the middle of the
    drag. *)
Definition unmounted_in_drag : World :=
  {| mounted := false;
     state := {| isHovered := false; position := Obj_xy 0 0; isDragging := true;
                 initialPos := {| x := 940; y := 740 |}; initialPos_id := 2 |};
     effect_render := 3; effect_deps := (true, 2%nat);
     mousemove_listeners := []; mouseup_listeners := [];
     localStorage := empty_storage; next_id := 4; log := [DefaultPrevented] |}.

(** The world after two presses without a release between them. *)
Definition pressed_twice_world : World :=
  {| mounted := true;
     state := {| isHovered := false; position := Obj_xy 0 0; isDragging := true;
                 initialPos := {| x := 950; y := 750 |}; initialPos_id := 4 |};
     effect_render := 5; effect_deps := (true, 4%nat);
     mousemove_listeners :=
       [{| render := 5;
           captured := {| isHovered := false; position := Obj_xy 0 0;
                          isDragging := true;
                          initialPos := {| x := 950; y := 750 |};
                          initialPos_id := 4 |} |}];
     mouseup_listeners :=
       [{| render := 5;
           captured := {| isHovered := false; position := Obj_xy 0 0;
                          isDragging := true;
                          initialPos := {| x := 950; y := 750 |};
                          initialPos_id := 4 |} |}];
     localStorage := empty_storage; next_id := 6;
     log := [DefaultPrevented; DefaultPrevented] |}.


(** * Proofs *)

(** ** Printing and reading integers *)

Lemma append_assoc (a b c : string) : ((a ++ b) ++ c)%string = (a ++ (b ++ c))%string.
Proof.
  induction a as [|ch a IH]; simpl; [reflexivity | now rewrite IH].
Qed.

Lemma digit_cases (d : Z) :
  0 <= d < 10 ->
  d = 0 \/ d = 1 \/ d = 2 \/ d = 3 \/ d = 4 \/ d = 5 \/ d = 6 \/ d = 7 \/ d = 8 \/ d = 9.
Proof. lia. Qed.

Lemma digit_char_spec (d : Z) :
  0 <= d < 10 ->
  is_digit (digit_char d) = true /\ digit_val (digit_char d) = d
  /\ is_ws (digit_char d) = false
  /\ (0 < d -> Ascii.eqb (digit_char d) "0" = false).
Proof.
  intros H. destruct (digit_cases d H) as [E|[E|[E|[E|[E|[E|[E|[E|[E|E]]]]]]]]];
    subst d; repeat split; try reflexivity; intros; lia.
Qed.

Lemma parse_digits_stop (acc : Z) (rest : string) :
  starts_with is_digit rest = false -> parse_digits acc rest = (acc, rest).
Proof.
  destruct rest as [|c r]; simpl; [reflexivity | intros ->; reflexivity].
Qed.

Lemma digits_fuel_enough (n : Z) : 0 <= n -> n < 10 ^ Z.of_nat (digits_fuel n).
Proof.
  intros Hn. unfold digits_fuel.
  rewrite Nat2Z.inj_succ, Z2Nat.id by apply Z.log2_nonneg.
  destruct (Z.eq_dec n 0) as [->|Hz].
  - simpl. lia.
  - assert (Hpos : 0 < n) by lia.
    pose proof (Z.log2_spec n Hpos) as [_ Hlt].
    eapply Z.lt_le_trans; [exact Hlt|].
    apply Z.pow_le_mono_l. split; [lia | lia].
Qed.

Lemma parse_digits_digits (f : nat) :
  forall n acc rest,
    0 <= n < 10 ^ Z.of_nat f ->
    exists m, parse_digits acc (digits f n ++ rest) = parse_digits (acc * m + n) rest.
Proof.
  induction f as [|f IH]; intros n acc rest Hn.
  - exists 1. simpl in Hn. assert (n = 0) by lia. subst n. simpl.
    f_equal. lia.
  - cbn [digits]. destruct (n <? 10) eqn:Hlt.
    + apply Z.ltb_lt in Hlt.
      destruct (digit_char_spec n) as (Hd & Hv & _); [lia|].
      exists 10. cbn [append parse_digits]. rewrite Hd, Hv. f_equal. lia.
    + apply Z.ltb_ge in Hlt.
      assert (Hq : 0 <= n / 10 < 10 ^ Z.of_nat f).
      { split; [apply Z.div_pos; lia|].
        apply Z.div_lt_upper_bound; [lia|].
        rewrite Nat2Z.inj_succ, Z.pow_succ_r in Hn by lia. lia. }
      destruct (IH (n / 10) acc (String (digit_char (n mod 10)) rest) Hq) as [m Hm].
      exists (10 * m). rewrite append_assoc. cbn [append]. rewrite Hm.
      assert (Hr : 0 <= n mod 10 < 10) by (apply Z.mod_pos_bound; lia).
      destruct (digit_char_spec (n mod 10) Hr) as (Hd & Hv & _).
      cbn [parse_digits]. rewrite Hd, Hv. f_equal.
      pose proof (Z.div_mod n 10). lia.
Qed.

Lemma digits_head (f : nat) :
  forall n,
    0 < n < 10 ^ Z.of_nat f ->
    exists c r, digits f n = String c r /\ is_digit c = true
                /\ Ascii.eqb c "0" = false /\ is_ws c = false.
Proof.
  induction f as [|f IH]; intros n Hn.
  - simpl in Hn. lia.
  - cbn [digits]. destruct (n <? 10) eqn:Hlt.
    + apply Z.ltb_lt in Hlt.
      destruct (digit_char_spec n) as (Hd & _ & Hw & Hz); [lia|].
      exists (digit_char n), "". repeat split; auto. apply Hz; lia.
    + apply Z.ltb_ge in Hlt.
      assert (Hq : 0 < n / 10 < 10 ^ Z.of_nat f).
      { split; [apply Z.div_str_pos; lia|].
        apply Z.div_lt_upper_bound; [lia|].
        rewrite Nat2Z.inj_succ, Z.pow_succ_r in Hn by lia. lia. }
      destruct (IH (n / 10) Hq) as (c & r & E & Hd & Hz & Hw).
      exists c, (r ++ String (digit_char (n mod 10)) "")%string.
      rewrite E. cbn [append]. auto.
Qed.

Lemma parse_unsigned_digits (n : Z) (rest : string) :
  0 <= n -> ends_number rest ->
  parse_unsigned (digits (digits_fuel n) n ++ rest) = POk n rest.
Proof.
  intros Hn [Hd Hf].
  pose proof (digits_fuel_enough n Hn) as Hfuel.
  destruct (parse_digits_digits (digits_fuel n) n 0 rest (conj Hn Hfuel)) as [m Hm].
  rewrite (parse_digits_stop (0 * m + n) rest Hd) in Hm.
  destruct (Z.eq_dec n 0) as [->|Hz].
  - unfold digits_fuel. simpl. rewrite Hd. simpl.
    rewrite (parse_digits_stop _ _ Hd), Hf. reflexivity.
  - destruct (digits_head (digits_fuel n) n) as (c & r & E & Hc & Hz0 & _); [lia|].
    rewrite E in *. cbn [append] in *. unfold parse_unsigned.
    rewrite Hc, Hz0. cbn [andb].
    rewrite Hm. replace (0 * m + n) with n by lia.
    rewrite Hf. reflexivity.
Qed.

Lemma parse_number_toString (n : Z) (rest : string) :
  ends_number rest ->
  parse_number (Number_toString n ++ rest) = POk n rest.
Proof.
  intros Hrest. unfold Number_toString.
  destruct (n <? 0) eqn:Hneg.
  - apply Z.ltb_lt in Hneg. cbn [append]. unfold parse_number.
    change (Ascii.eqb "-" "-") with true. cbv iota.
    rewrite parse_unsigned_digits by (auto; lia).
    f_equal. lia.
  - apply Z.ltb_ge in Hneg.
    destruct (Z.eq_dec n 0) as [->|Hz].
    + unfold digits_fuel. simpl. destruct Hrest as [Hd Hf].
      rewrite Hd. simpl. rewrite (parse_digits_stop _ _ Hd), Hf. reflexivity.
    + destruct (digits_head (digits_fuel n) n) as (c & r & E & Hc & Hz0 & _).
      { split; [lia | apply digits_fuel_enough; lia]. }
      pose proof (parse_unsigned_digits n rest Hneg Hrest) as P.
      rewrite E in *. cbn [append] in *. unfold parse_number.
      destruct (Ascii.eqb c "-") eqn:Em.
      * apply Ascii.eqb_eq in Em. subst c. discriminate Hc.
      * exact P.
Qed.

(** A printed number starts with a digit or a minus sign. *)
Lemma Number_toString_head (n : Z) :
  exists c r, Number_toString n = String c r
              /\ (is_digit c || Ascii.eqb c "-")%bool = true /\ is_ws c = false.
Proof.
  unfold Number_toString. destruct (n <? 0) eqn:Hneg.
  - eexists _, _. split; [reflexivity|]. split; reflexivity.
  - apply Z.ltb_ge in Hneg. destruct (Z.eq_dec n 0) as [->|Hz].
    + exists "0"%char, "". repeat split.
    + destruct (digits_head (digits_fuel n) n) as (c & r & E & Hc & _ & Hw).
      { split; [lia | apply digits_fuel_enough; lia]. }
      exists c, r. rewrite E, Hc. auto.
Qed.

(** ** [JSON.parse] after [JSON.stringify], on a position *)

Lemma parse_value_Number_toString (n : Z) (f : nat) (rest : string) :
  ends_number rest ->
  parse_value (S f) (Number_toString n ++ rest) = POk (JNum n) rest.
Proof.
  intros Hrest.
  pose proof (parse_number_toString n rest Hrest) as P.
  destruct (Number_toString_head n) as (c & r & E & Hc & Hw).
  rewrite E in *. cbn [append] in *.
  cbn [parse_value skip_ws]. rewrite Hw, Hc, P. reflexivity.
Qed.

Lemma stringify_xy (a b : Z) :
  JSON_stringify (Obj_xy a b) =
  String "{" (String dquote (String "x" (String dquote (String ":"
    (Number_toString a ++
     String "," (String dquote (String "y" (String dquote (String ":"
       (Number_toString b ++ "}")))))))))).
Proof.
  unfold Obj_xy. cbn [JSON_stringify map join fst snd].
  change (quote "x") with (String dquote (String "x" (String dquote ""))).
  change (quote "y") with (String dquote (String "y" (String dquote ""))).
  cbn [append]. rewrite !append_assoc. cbn [append]. reflexivity.
Qed.

Lemma parse_object_xy (nx ny : string) (a b : Z) :
  (forall f rest, ends_number rest ->
                  parse_value (S f) (nx ++ rest) = POk (JNum a) rest) ->
  (forall f rest, ends_number rest ->
                  parse_value (S f) (ny ++ rest) = POk (JNum b) rest) ->
  forall f,
    parse_value (S (S (S (S f))))
      (String "{" (String dquote (String "x" (String dquote (String ":"
        (nx ++ String "," (String dquote (String "y" (String dquote (String ":"
           (ny ++ "}"))))))))))) = POk (Obj_xy a b) "".
Proof.
  intros Hx Hy f.
  remember (S (S f)) as f2 eqn:E2.
  cbn. subst f2. rewrite Hx by (split; reflexivity).
  remember (S f) as f3 eqn:E3.
  cbn. subst f3. rewrite Hy by (split; reflexivity).
  cbn. reflexivity.
Qed.

Lemma JSON_parse_stringify_xy (a b : Z) :
  JSON_parse (JSON_stringify (Obj_xy a b)) = Parsed (Obj_xy a b).
Proof.
  rewrite stringify_xy. unfold JSON_parse. cbn [String.length].
  rewrite (parse_object_xy (Number_toString a) (Number_toString b) a b).
  - reflexivity.
  - intros; now apply parse_value_Number_toString.
  - intros; now apply parse_value_Number_toString.
Qed.

(** ** [localStorage] *)

Lemma getItem_setItem_in (l : list (string * string)) (k v : string) :
  getItem_in (setItem_in l k v) k = Some v.
Proof.
  induction l as [|[k' v'] l IH]; cbn.
  - now rewrite String.eqb_refl.
  - destruct (String.eqb k k') eqn:E; cbn.
    + now rewrite String.eqb_refl.
    + now rewrite E.
Qed.

Lemma getItem_setItem (ls ls' : Storage) (k v : string) :
  setItem ls k v = Some ls' -> getItem ls' k = Some v.
Proof.
  unfold setItem, getItem. destruct (N.leb _ _); [|discriminate].
  intros [= <-]. cbn. apply getItem_setItem_in.
Qed.

(** ** The invariant holds in every session *)

Lemma deps_eqb_refl (d : bool * nat) : deps_eqb d d = true.
Proof.
  destruct d as [b n]. unfold deps_eqb. simpl.
  now rewrite Bool.eqb_reflx, Nat.eqb_refl.
Qed.

Lemma remove_own (c : Closure) : removeEventListener [c] (render c) = [].
Proof. unfold removeEventListener. simpl. now rewrite Nat.eqb_refl. Qed.

Lemma buttonStyle_coords (r : State) :
  buttonStyle r <> None <-> has_coords (position r) = true.
Proof.
  unfold buttonStyle, has_coords.
  destruct (num_prop (position r) "x"), (num_prop (position r) "y");
    split; intros H; try reflexivity; try discriminate; congruence.
Qed.

Lemma commit_same (w : World) :
  effect_deps w = deps_of (state w) ->
  commit w = with_next_id w (S (next_id w)).
Proof.
  intros E. unfold commit. now rewrite E, deps_eqb_refl.
Qed.

Lemma commit_frame (w : World) :
  state (commit w) = state w /\ log (commit w) = log w
  /\ localStorage (commit w) = localStorage w /\ mounted (commit w) = mounted w.
Proof.
  unfold commit, listener_effect.
  destruct (deps_eqb _ _); [|destruct (isDragging _)]; cbn; auto.
Qed.

(** The cleanup empties a registry that satisfies the invariant. *)
Lemma cleanup_listeners (w : World) :
  listeners_of w ->
  removeEventListener (mousemove_listeners w) (effect_render w) = []
  /\ removeEventListener (mouseup_listeners w) (effect_render w) = [].
Proof.
  unfold listeners_of. destruct (mounted w && isDragging (state w)).
  - intros (c & -> & -> & <- & _). now rewrite remove_own.
  - intros [-> ->]. split; reflexivity.
Qed.

Lemma load_effect_with_cases (parse : string -> parse_result) (ls : Storage)
      (acts : list Action) :
  load_effect_with parse ls = Some acts ->
  acts = [] \/ (exists msg, acts = [console_error msg])
  \/ (exists v, acts = [setPosition v]).
Proof.
  unfold load_effect_with.
  destruct (getItem ls terminalButtonPosition) as [sv|];
    [destruct (Nat.eqb (String.length sv) 0); [|destruct (parse sv)]|];
    intros E; try discriminate; injection E as <-; eauto.
Qed.

Lemma mount_with_inv (parse : string -> parse_result) (ls : Storage) (w : World) :
  mount_with parse ls = Some w -> Inv w.
Proof.
  unfold mount_with.
  destruct (load_effect_with parse ls) as [acts|] eqn:E; [|discriminate].
  destruct (load_effect_with_cases parse ls acts E) as [-> | [[msg ->] | [v ->]]];
    cbn [exec]; unfold listener_effect; cbn [captured initial_state isDragging];
    match goal with |- context [render_throws ?r] => destruct (render_throws r) end;
    intros H; injection H as <-;
    split; cbn; auto; try lia; intros; discriminate.
Qed.

Lemma mount_inv (ls : Storage) (w : World) : mount ls = Some w -> Inv w.
Proof. apply mount_with_inv. Qed.

Lemma inv_same_drag (w0 w1 : World) :
  Inv w0 -> same_drag w0 w1 ->
  (isDragging (state w1) = true -> has_coords (position (state w1)) = true) ->
  Inv (commit w1).
Proof.
  intros [Hd Hf Hl Hn] (Hm & Hg & Hp & Hi & Hr & He & Hmm & Hmu & Hid) Hc.
  assert (E : effect_deps w1 = deps_of (state w1)).
  { rewrite He, Hd. unfold deps_of. now rewrite Hg, Hi. }
  rewrite (commit_same _ E).
  split; cbn.
  - exact E.
  - rewrite Hi, Hid. lia.
  - unfold listeners_of in *. cbn. rewrite Hm, Hg, Hmm, Hmu, Hr, Hp. exact Hl.
  - exact Hc.
Qed.

Ltac same_drag_tac := unfold same_drag; cbn; repeat split; reflexivity.

Lemma inv_drag_start (w : World) (p : Position) :
  Inv w -> mounted w = true -> has_coords (position (state w)) = true ->
  Inv (commit (exec w [setIsDragging true; setInitialPos p; preventDefault])).
Proof.
  intros [Hd Hf Hl Hn] Hm Hc.
  destruct (cleanup_listeners w Hl) as [Cm Cu].
  cbn [exec]. unfold commit. cbn -[removeEventListener addEventListener].
  rewrite Hd. unfold deps_of, deps_eqb. cbn -[removeEventListener addEventListener].
  replace (Nat.eqb (next_id w) (initialPos_id (state w))) with false
    by (symmetry; apply Nat.eqb_neq; lia).
  rewrite Bool.andb_false_r.
  unfold listener_effect, listener_cleanup.
  cbn -[removeEventListener addEventListener]. rewrite Cm, Cu. cbn.
  split; cbn; auto.
  unfold listeners_of. cbn. rewrite Hm. cbn.
  eexists. repeat split.
Qed.

Lemma inv_drag_end (w : World) (k v : string) :
  Inv w ->
  Inv (commit (exec w [setIsDragging false; localStorage_setItem k v])).
Proof.
  intros HI. pose proof HI as [Hd Hf Hl Hn].
  destruct (cleanup_listeners w Hl) as [Cm Cu].
  assert (G : forall w1 : World,
             mounted w1 = mounted w ->
             state w1 = set_isDragging (state w) false ->
             effect_render w1 = effect_render w ->
             effect_deps w1 = effect_deps w ->
             mousemove_listeners w1 = mousemove_listeners w ->
             mouseup_listeners w1 = mouseup_listeners w ->
             next_id w1 = next_id w ->
             Inv (commit w1)).
  { intros w1 Em Es Er Ed Emm Emu En.
    destruct (isDragging (state w)) eqn:Hg.
    - unfold commit. rewrite Ed, Hd, Es. unfold deps_of, deps_eqb.
      cbn -[removeEventListener addEventListener]. rewrite Hg.
      cbn -[removeEventListener addEventListener].
      unfold listener_effect, listener_cleanup.
      cbn -[removeEventListener addEventListener].
      rewrite Emm, Emu, Er, Cm, Cu.
      split; cbn; rewrite ?Es; cbn; auto.
      + rewrite En. lia.
      + unfold listeners_of. cbn. rewrite Es. cbn.
        rewrite Bool.andb_false_r. auto.
    - apply (inv_same_drag w); auto.
      + unfold same_drag. rewrite Es. cbn. rewrite Hg. repeat split; auto.
      + rewrite Es. cbn. discriminate. }
  cbn [exec]. destruct (setItem _ k v); apply G; reflexivity.
Qed.

Lemma step_inv (w w' : World) (ev : Event) :
  Inv w -> step w ev = Some w' -> Inv w'.
Proof.
  intros HI Hs. pose proof HI as [Hd Hf Hl Hn]. unfold step in Hs.
  destruct (mounted w) eqn:Hm.
  - destruct (buttonStyle (state w)) eqn:Hb; [|discriminate].
    assert (Hc : has_coords (position (state w)) = true)
      by (apply buttonStyle_coords; congruence).
    destruct ev.
    + (* MouseDown *)
      unfold handleMouseDown in Hs.
      destruct (negb (button e =? 0)).
      * injection Hs as <-. apply (inv_same_drag w); auto. same_drag_tac.
      * pose proof Hc as Hc'. unfold has_coords in Hc'.
        destruct (num_prop (position (state w)) "x") as [px|]; [|discriminate].
        destruct (num_prop (position (state w)) "y") as [py|]; [|discriminate].
        injection Hs as <-. now apply inv_drag_start.
    + (* Click *)
      injection Hs as <-. unfold handleClick.
      destruct (negb (isDragging (state w)));
        apply (inv_same_drag w); auto; same_drag_tac.
    + (* KeyDown *)
      injection Hs as <-. unfold handleKeyDown, handleClick.
      destruct (String.eqb key "Enter" || String.eqb key " ");
        [destruct (negb (isDragging (state w)))|];
        apply (inv_same_drag w); auto; same_drag_tac.
    + injection Hs as <-. apply (inv_same_drag w); auto. same_drag_tac.
    + injection Hs as <-. apply (inv_same_drag w); auto. same_drag_tac.
    + injection Hs as <-. apply (inv_same_drag w); auto. same_drag_tac.
    + injection Hs as <-. apply (inv_same_drag w); auto. same_drag_tac.
    + (* WindowMouseMove *)
      injection Hs as <-. unfold listeners_of in Hl. rewrite Hm in Hl.
      destruct (isDragging (state w)) eqn:Hg; cbn in Hl.
      * destruct Hl as (c0 & Emm & Emu & Er & Eg & Ep). rewrite Emm.
        cbn [flat_map]. unfold handleMouseMove. rewrite Eg. cbn [negb app].
        apply (inv_same_drag w); auto. same_drag_tac.
      * destruct Hl as [Emm Emu]. rewrite Emm. cbn [flat_map].
        apply (inv_same_drag w); auto. same_drag_tac.
    + (* WindowMouseUp *)
      injection Hs as <-. unfold listeners_of in Hl. rewrite Hm in Hl.
      destruct (isDragging (state w)) eqn:Hg; cbn in Hl.
      * destruct Hl as (c0 & Emm & Emu & Er & Eg & Ep). rewrite Emu.
        cbn [flat_map]. unfold handleMouseUp. rewrite Eg. cbn [app].
        now apply inv_drag_end.
      * destruct Hl as [Emm Emu]. rewrite Emu. cbn [flat_map].
        apply (inv_same_drag w); auto. same_drag_tac.
    + (* Unmount *)
      injection Hs as <-. destruct (cleanup_listeners w Hl) as [Cm Cu].
      split; cbn -[removeEventListener]; auto;
        try (unfold listeners_of; cbn -[removeEventListener]; now rewrite Cm, Cu).
  - unfold listeners_of in Hl. rewrite Hm in Hl. cbn in Hl.
    destruct Hl as [Emm Emu].
    destruct ev; try (injection Hs as <-; exact HI).
    + rewrite Emm in Hs. injection Hs as <-. exact HI.
    + rewrite Emu in Hs. injection Hs as <-. exact HI.
Qed.

Lemma run_inv (tr : list Event) :
  forall w w', Inv w -> run w tr = Some w' -> Inv w'.
Proof.
  induction tr as [|ev tr IH]; intros w w' HI Hr; cbn in Hr.
  - now injection Hr as <-.
  - destruct (step w ev) as [w1|] eqn:Hs; [|discriminate].
    eapply IH; [eapply step_inv; eauto | exact Hr].
Qed.

Lemma session_inv (ls : Storage) (tr : list Event) (w : World) :
  session ls tr = Some w -> Inv w.
Proof.
  unfold session. destruct (mount ls) as [w0|] eqn:Hm; [|discriminate].
  apply run_inv. now apply (mount_inv ls).
Qed.

Lemma idle_world_mounted : session empty_storage [] = Some idle_world.
Proof. reflexivity. Qed.

(** ** What each pointer event does to a world *)

Lemma skipn_app_own {A : Type} (l l' : list A) :
  skipn (List.length l) (l ++ l')%list = l'.
Proof. induction l; cbn; auto. Qed.

Lemma effects_since_app (w w' : World) (l : list Effect) :
  log w' = (log w ++ l)%list -> effects_since w w' = l.
Proof. unfold effects_since. intros ->. apply skipn_app_own. Qed.

Lemma step_mouse_down (w : World) (e : MouseEvent) :
  Inv w -> mounted w = true -> has_coords (position (state w)) = true ->
  button e = 0 ->
  exists w1 c,
    step w (MouseDown e) = Some w1
    /\ mounted w1 = true
    /\ isDragging (state w1) = true
    /\ position (state w1) = position (state w)
    /\ localStorage w1 = localStorage w
    /\ log w1 = (log w ++ [DefaultPrevented])%list
    /\ mousemove_listeners w1 = [c] /\ mouseup_listeners w1 = [c]
    /\ isDragging (captured c) = true
    /\ position (captured c) = position (state w)
    /\ (forall px py,
           num_prop (position (state w)) "x" = Some px ->
           num_prop (position (state w)) "y" = Some py ->
           initialPos (captured c) = {| x := clientX e - px; y := clientY e - py |}).
Proof.
  intros [Hd Hf Hl Hn] Hm Hc Hb.
  destruct (cleanup_listeners w Hl) as [Cm Cu].
  unfold step. rewrite Hm.
  destruct (buttonStyle (state w)) eqn:Hs;
    [|apply buttonStyle_coords in Hc; congruence].
  unfold handleMouseDown. rewrite Hb. cbn [Z.eqb negb].
  unfold has_coords in Hc.
  destruct (num_prop (position (state w)) "x") as [px|]; [|discriminate].
  destruct (num_prop (position (state w)) "y") as [py|]; [|discriminate].
  cbn [exec]. unfold commit. cbn -[removeEventListener addEventListener].
  rewrite Hd. unfold deps_of, deps_eqb.
  cbn -[removeEventListener addEventListener].
  replace (Nat.eqb (next_id w) (initialPos_id (state w))) with false
    by (symmetry; apply Nat.eqb_neq; lia).
  rewrite Bool.andb_false_r.
  unfold listener_effect, listener_cleanup.
  cbn -[removeEventListener addEventListener]. rewrite Cm, Cu. cbn.
  eexists _, _. split; [reflexivity|]. cbn.
  repeat split; auto.
  intros ? ? [= <-] [= <-]. reflexivity.
Qed.

Lemma step_mouse_up (w : World) (c : Closure) :
  Inv w -> mounted w = true -> isDragging (state w) = true ->
  mouseup_listeners w = [c] ->
  exists w2,
    step w WindowMouseUp = Some w2
    /\ mounted w2 = true
    /\ isDragging (state w2) = false
    /\ position (state w2) = position (state w)
    /\ mousemove_listeners w2 = [] /\ mouseup_listeners w2 = []
    /\ release_outcome w w2 (JSON_stringify (position (captured c))).
Proof.
  intros HI Hm Hg Hu. pose proof HI as [Hd Hf Hl Hn].
  destruct (cleanup_listeners w Hl) as [Cm Cu].
  unfold listeners_of in Hl. rewrite Hm, Hg in Hl. cbn in Hl.
  destruct Hl as (c' & Emm & Emu & Er & Eg & Ep).
  rewrite Hu in Emu. injection Emu as <-.
  unfold step. rewrite Hm.
  destruct (buttonStyle (state w)) eqn:Hs;
    [|apply Hn, buttonStyle_coords in Hg; congruence].
  rewrite Hu. cbn [flat_map]. unfold handleMouseUp. rewrite Eg. cbn [app exec].
  unfold release_outcome.
  cbn -[removeEventListener addEventListener setItem].
  destruct (setItem (localStorage w) terminalButtonPosition
                    (JSON_stringify (position (captured c)))) as [ls|];
    unfold commit; cbn -[removeEventListener addEventListener];
    rewrite Hd; unfold deps_of, deps_eqb;
    cbn -[removeEventListener addEventListener]; rewrite Hg;
    cbn -[removeEventListener addEventListener];
    unfold listener_effect, listener_cleanup;
    cbn -[removeEventListener addEventListener]; rewrite Cm, Cu;
    eexists; (split; [reflexivity|]); cbn; repeat split; auto.
  now rewrite <- app_assoc.
Qed.

Lemma step_mouse_move (w : World) (c : Closure) (pg : Page) (e : MouseEvent) :
  Inv w -> mounted w = true -> isDragging (state w) = true ->
  mousemove_listeners w = [c] ->
  exists w1 v,
    handleMouseMove (captured c) pg e = [setPosition v]
    /\ step w (WindowMouseMove pg e) = Some w1
    /\ mounted w1 = true
    /\ isDragging (state w1) = true
    /\ position (state w1) = v
    /\ localStorage w1 = localStorage w
    /\ log w1 = log w
    /\ mousemove_listeners w1 = [c] /\ mouseup_listeners w1 = mouseup_listeners w.
Proof.
  intros HI Hm Hg Hu. pose proof HI as [Hd Hf Hl Hn].
  unfold listeners_of in Hl. rewrite Hm, Hg in Hl. cbn in Hl.
  destruct Hl as (c' & Emm & Emu & Er & Eg & Ep).
  rewrite Hu in Emm. injection Emm as <-.
  unfold step. rewrite Hm.
  destruct (buttonStyle (state w)) eqn:Hs;
    [|apply Hn, buttonStyle_coords in Hg; congruence].
  rewrite Hu. cbn [flat_map]. unfold handleMouseMove. rewrite Eg.
  cbn [negb app exec].
  rewrite commit_same by (cbn; rewrite Hd; reflexivity).
  eexists _, _. split; [reflexivity|]. split; [reflexivity|].
  cbn. repeat split; auto.
Qed.

Lemma step_click (w : World) :
  mounted w = true -> has_coords (position (state w)) = true ->
  exists w',
    step w Click = Some w'
    /\ log w' = (log w ++ (if isDragging (state w) then []
                           else [Navigated "terminal"]))%list
    /\ localStorage w' = localStorage w
    /\ state w' = state w.
Proof.
  intros Hm Hc. unfold step. rewrite Hm.
  destruct (buttonStyle (state w)) eqn:Hs;
    [|apply buttonStyle_coords in Hc; congruence].
  eexists. split; [reflexivity|].
  destruct (commit_frame (exec w (handleClick (state w)))) as (Es & El & Est & _).
  rewrite Es, El, Est. unfold handleClick.
  destruct (isDragging (state w)); cbn; rewrite ?app_nil_r; auto.
Qed.

Lemma released_or_unmounted (w w1 : World) (ev : Event) :
  Inv w -> ev = WindowMouseUp \/ ev = Unmount -> step w ev = Some w1 ->
  mounted w1 && isDragging (state w1) = false
  /\ position (state w1) = position (state w)
  /\ (mounted w1 = true -> has_coords (position (state w1)) = true).
Proof.
  intros HI Hev Hs. pose proof HI as [Hd Hf Hl Hn].
  unfold step in Hs. destruct (mounted w) eqn:Hm.
  - destruct (buttonStyle (state w)) eqn:Hb; [|discriminate].
    assert (Hc : has_coords (position (state w)) = true)
      by (apply buttonStyle_coords; congruence).
    destruct Hev as [-> | ->].
    + destruct (isDragging (state w)) eqn:Hg.
      * unfold listeners_of in Hl. rewrite Hm, Hg in Hl. cbn in Hl.
        destruct Hl as (c0 & _ & Emu & _).
        destruct (step_mouse_up w c0 HI Hm Hg Emu)
          as (w2 & S2 & M2 & G2 & P2 & _).
        unfold step in S2. rewrite Hm, Hb in S2. rewrite S2 in Hs.
        injection Hs as <-. rewrite G2, P2, Bool.andb_false_r. auto.
      * unfold listeners_of in Hl. rewrite Hm, Hg in Hl. cbn in Hl.
        destruct Hl as [_ Emu]. rewrite Emu in Hs. cbn [flat_map exec] in Hs.
        injection Hs as <-.
        destruct (commit_frame w) as (Es & _ & _ & _). rewrite Es, Hg.
        rewrite Bool.andb_false_r. auto.
    + injection Hs as <-. cbn. split; [reflexivity|]. split; [reflexivity|].
      discriminate.
  - unfold listeners_of in Hl. rewrite Hm in Hl. cbn in Hl.
    destruct Hl as [Emm Emu].
    destruct Hev as [-> | ->].
    + rewrite Emu in Hs. injection Hs as <-. rewrite Hm. cbn.
      split; [reflexivity|]. split; [reflexivity|]. discriminate.
    + injection Hs as <-. rewrite Hm. cbn.
      split; [reflexivity|]. split; [reflexivity|]. discriminate.
Qed.

Lemma move_without_listeners (w : World) (pg : Page) (e : MouseEvent) :
  mousemove_listeners w = [] ->
  (mounted w = true -> has_coords (position (state w)) = true) ->
  exists w2,
    step w (WindowMouseMove pg e) = Some w2
    /\ position (state w2) = position (state w).
Proof.
  intros El Hc. unfold step. rewrite El. cbn [flat_map exec].
  destruct (mounted w).
  - destruct (buttonStyle (state w)) eqn:Hs;
      [|specialize (Hc eq_refl); apply buttonStyle_coords in Hc; congruence].
    eexists. split; [reflexivity|].
    destruct (commit_frame w) as (Es & _). now rewrite Es.
  - eexists. split; reflexivity.
Qed.

(** ** Mounting *)

Lemma length_zero_empty (s : string) : Nat.eqb (String.length s) 0 = false <-> s <> "".
Proof.
  destruct s; cbn; split; intros H; try congruence; try discriminate.
Qed.

Lemma coords_render (r : State) (v : jsval) :
  has_coords v = true -> render_throws (set_position r v) = false.
Proof.
  unfold has_coords, num_prop, render_throws. cbn [position set_position].
  destruct v; cbn; try discriminate.
  destruct (assoc "x" fields) as [[]|]; try discriminate.
  destruct (assoc "y" fields) as [[]|]; try discriminate.
  reflexivity.
Qed.

Lemma mount_with_of_load (parse : string -> parse_result) (ls : Storage)
      (acts : list Action) :
  load_effect_with parse ls = Some acts ->
  exists w,
    mount_with parse ls = Some w
    /\ state w = state (exec (with_log idle_world []) acts)
    /\ (render_throws (state w) = false ->
        mounted w = true
        /\ log w = log (exec (with_log idle_world []) acts))
    /\ (render_throws (state w) = true ->
        mounted w = false
        /\ log w = (log (exec (with_log idle_world []) acts)
                    ++ [Uncaught TypeError])%list).
Proof.
  intros E. unfold mount_with. rewrite E.
  destruct (load_effect_with_cases parse ls acts E) as [-> | [[msg ->] | [v ->]]];
    cbn [exec]; unfold listener_effect; cbn [captured initial_state isDragging].
  - eexists. split; [reflexivity|]. cbn. split; [reflexivity|].
    split; [auto | discriminate].
  - eexists. split; [reflexivity|]. cbn. split; [reflexivity|].
    split; [auto | discriminate].
  - cbn [state with_state with_log idle_world].
    destruct (render_throws (set_position initial_state v)) eqn:R.
    + eexists. split; [reflexivity|]. cbn. rewrite R.
      split; [reflexivity|]. split; [discriminate | auto].
    + eexists. split; [reflexivity|].
      match goal with |- context [commit ?u] =>
        destruct (commit_frame u) as (Es & El & _ & Em) end.
      rewrite Es, El, Em. cbn. rewrite R.
      split; [reflexivity|]. split; [auto | discriminate].
Qed.

Lemma mount_of_load (ls : Storage) (acts : list Action) :
  load_effect ls = Some acts ->
  exists w,
    mount ls = Some w
    /\ state w = state (exec (with_log idle_world []) acts)
    /\ (render_throws (state w) = false ->
        mounted w = true
        /\ log w = log (exec (with_log idle_world []) acts))
    /\ (render_throws (state w) = true ->
        mounted w = false
        /\ log w = (log (exec (with_log idle_world []) acts)
                    ++ [Uncaught TypeError])%list).
Proof. apply mount_with_of_load. Qed.

(** ** Sessions do not get stuck *)

Lemma step_total (w : World) (ev : Event) :
  Inv w -> has_coords (position (state w)) = true ->
  exists w', step w ev = Some w' /\ has_coords (position (state w')) = true.
Proof.
  intros HI Hc. pose proof HI as [Hd Hf Hl Hn].
  assert (Hb : exists st, buttonStyle (state w) = Some st).
  { destruct (buttonStyle (state w)) eqn:E; [eauto|].
    apply buttonStyle_coords in Hc. congruence. }
  destruct Hb as [st Hb].
  assert (K : forall acts,
             position (state (exec w acts)) = position (state w) ->
             exists w', Some (commit (exec w acts)) = Some w'
                        /\ has_coords (position (state w')) = true).
  { intros acts E. eexists. split; [reflexivity|].
    destruct (commit_frame (exec w acts)) as (Es & _). now rewrite Es, E. }
  unfold step. unfold listeners_of in Hl.
  destruct (mounted w) eqn:Hm; [rewrite Hb|].
  - destruct ev.
    + unfold handleMouseDown. destruct (negb (button e =? 0)).
      * now apply K.
      * pose proof Hc as Hc'. unfold has_coords in Hc'.
        destruct (num_prop (position (state w)) "x"); [|discriminate].
        destruct (num_prop (position (state w)) "y"); [|discriminate].
        now apply K.
    + apply K. unfold handleClick. now destruct (negb _).
    + apply K. unfold handleKeyDown, handleClick.
      destruct (_ || _); [destruct (negb _)|]; reflexivity.
    + now apply K.
    + now apply K.
    + now apply K.
    + now apply K.
    + destruct (isDragging (state w)) eqn:Hg; cbn in Hl.
      * destruct Hl as (c & -> & _ & _ & Eg & _). cbn [flat_map].
        unfold handleMouseMove. rewrite Eg. cbn [negb app exec].
        eexists. split; [reflexivity|].
        rewrite (proj1 (commit_frame _)). reflexivity.
      * destruct Hl as [-> _]. now apply K.
    + destruct (isDragging (state w)) eqn:Hg; cbn in Hl.
      * destruct Hl as (c & _ & -> & _ & Eg & _). cbn [flat_map].
        unfold handleMouseUp. rewrite Eg. cbn [app]. apply K.
        cbn [exec]. now destruct (setItem _ _ _).
      * destruct Hl as [_ ->]. now apply K.
    + eexists. split; [reflexivity|]. exact Hc.
  - cbn in Hl. destruct Hl as [-> ->].
    destruct ev; eexists; (split; [reflexivity|]); exact Hc.
Qed.

Lemma run_total (tr : list Event) :
  forall w, Inv w -> has_coords (position (state w)) = true ->
            exists w', run w tr = Some w'.
Proof.
  induction tr as [|ev tr IH]; intros w HI Hc; cbn.
  - eauto.
  - destruct (step_total w ev HI Hc) as (w1 & S1 & C1). rewrite S1.
    apply IH; [eapply step_inv; eauto | exact C1].
Qed.

(** A control mounted on a store without the key, with an empty or
    ill-formed text, or with a saved position, goes through every
    sequence of events. *)
Lemma session_total (ls : Storage) (tr : list Event) :
  load_effect ls = Some []
  \/ (exists msg, load_effect ls = Some [console_error msg])
  \/ (exists px py, load_effect ls = Some [setPosition (Obj_xy px py)]) ->
  exists w, session ls tr = Some w.
Proof.
  intros H.
  assert (E : exists acts, load_effect ls = Some acts
                           /\ has_coords
                                (position (state (exec (with_log idle_world []) acts)))
                              = true).
  { destruct H as [E | [[msg E] | (px & py & E)]]; eexists; (split; [exact E|]);
      reflexivity. }
  destruct E as (acts & E & Hc).
  destruct (mount_of_load ls acts E) as (w0 & Hm & Hs & _).
  unfold session. rewrite Hm. apply run_total.
  - now apply (mount_inv ls).
  - now rewrite Hs.
Qed.

(** ** A drag writes the position of its press *)

(** The listeners that a press registers belong to the render of the
    press: they keep its [position], whatever the moves set later, and
    the release writes that one. *)
Lemma moves_keep_listener (moves : list (Page * MouseEvent)) :
  forall (w : World) (c : Closure),
    Inv w -> mounted w = true -> isDragging (state w) = true ->
    mouseup_listeners w = [c] ->
    exists w1,
      run w (map (fun m => WindowMouseMove (fst m) (snd m)) moves) = Some w1
      /\ Inv w1 /\ mounted w1 = true /\ isDragging (state w1) = true
      /\ mouseup_listeners w1 = [c]
      /\ log w1 = log w /\ localStorage w1 = localStorage w.
Proof.
  induction moves as [|[pg e] moves IH]; intros w c HI Hm Hg Hu.
  - exists w. cbn. auto 10.
  - pose proof (inv_listeners w HI) as Hl.
    unfold listeners_of in Hl. rewrite Hm, Hg in Hl. cbn in Hl.
    destruct Hl as (c' & Emm & Emu & _). rewrite Hu in Emu.
    injection Emu as <-.
    destruct (step_mouse_move w c pg e HI Hm Hg Emm)
      as (wa & v & _ & Sa & Ma & Ga & _ & Sta & La & _ & Ua).
    pose proof (step_inv _ _ _ HI Sa) as HIa.
    rewrite Hu in Ua.
    destruct (IH wa c HIa Ma Ga Ua) as (w1 & R1 & HI1 & M1 & G1 & U1 & L1 & St1).
    exists w1. cbn [map run fst snd]. rewrite Sa.
    rewrite L1, St1, La, Sta. auto 10.
Qed.

Lemma drag_writes_position_at_pointer_down
      (ls : Storage) (tr : list Event) (w : World) (e : MouseEvent)
      (moves : list (Page * MouseEvent)) :
  session ls tr = Some w ->
  mounted w = true -> isDragging (state w) = false ->
  has_coords (position (state w)) = true -> button e = 0 ->
  exists w',
    run w (MouseDown e
             :: map (fun m => WindowMouseMove (fst m) (snd m)) moves
             ++ [WindowMouseUp])%list = Some w'
    /\ writes (effects_since w w') = [JSON_stringify (position (state w))].
Proof.
  intros Hs Hm Hg Hc Hb.
  pose proof (session_inv _ _ _ Hs) as HI.
  destruct (step_mouse_down w e HI Hm Hc Hb)
    as (wa & c & Sa & Ma & Ga & _ & La & Loga & _ & Ua & _ & Pc & _).
  pose proof (step_inv _ _ _ HI Sa) as HIa.
  destruct (moves_keep_listener moves wa c HIa Ma Ga Ua)
    as (wb & Rb & HIb & Mb & Gb & Ub & Lb & Stb).
  destruct (step_mouse_up wb c HIb Mb Gb Ub) as (wc & Sc & _ & _ & _ & _ & _ & Oc).
  exists wc. split.
  - cbn [run]. rewrite Sa. clear - Rb Sc.
    revert Rb. generalize (map (fun m => WindowMouseMove (fst m) (snd m)) moves).
    intros l. revert wa. induction l as [|ev l IH]; intros wa Rb; cbn in *.
    + injection Rb as ->. now rewrite Sc.
    + destruct (step wa ev); [now apply IH | discriminate].
  - unfold release_outcome in Oc. rewrite Pc in Oc.
    destruct (setItem (localStorage wb) terminalButtonPosition _);
      destruct Oc as [_ Lc]; rewrite Lb, Loga, <- app_assoc in Lc;
      rewrite (effects_since_app w wc _ Lc); reflexivity.
Qed.

(** * The claims *)

(** ** C1: what a drag persists *)

(** C1, the code at the failing input.  A page of 1000 x 800, an empty
    store, the control of 48 x 48 at its default corner.  First drag:
    press on the control at (940, 740), move to (990, 790), release; the
    control is then shown at (50, 50), and the one write stores (0, 0),
    the position of the press.  Second drag: press on the control at
    (60, 60), move to (160, 260), release; the control is shown at
    (150, 250), and the one write stores (50, 50).  The click that the
    browser then sends to the control navigates. *)
Theorem C1_drag_persists_position_at_pointer_down :
  exists w1 w2 w3,
    session empty_storage first_drag = Some w1
    /\ position (state w1) = Obj_xy 50 50
    /\ writes (log w1) = [JSON_stringify (Obj_xy 0 0)]
    /\ navigations (log w1) = []
    /\ run w1 second_drag = Some w2
    /\ position (state w2) = Obj_xy 150 250
    /\ writes (effects_since w1 w2) = [JSON_stringify (Obj_xy 50 50)]
    /\ getItem (localStorage w2) terminalButtonPosition
       = Some (JSON_stringify (Obj_xy 50 50))
    /\ JSON_stringify (Obj_xy 50 50) <> JSON_stringify (Obj_xy 150 250)
    /\ navigations (effects_since w1 w2) = []
    /\ step w2 Click = Some w3
    /\ navigations (effects_since w2 w3) = ["terminal"].
Proof.
  eexists _, _, _. split; [vm_compute; reflexivity|].
  split; [reflexivity|]. split; [reflexivity|]. split; [reflexivity|].
  split; [vm_compute; reflexivity|].
  split; [reflexivity|]. split; [reflexivity|]. split; [reflexivity|].
  split; [discriminate|]. split; [reflexivity|].
  split; [vm_compute; reflexivity|]. reflexivity.
Qed.

(** ** C2: press and release without movement *)

(** C2, counterexample.  Press and release at the same place: the
    release writes the position, whether or not the click that the
    browser sends next is counted with the gesture. *)
Lemma C2_counterexample :
  exists w1 w2,
    session empty_storage [MouseDown (primary 940 740); WindowMouseUp] = Some w1
    /\ session empty_storage [MouseDown (primary 940 740); WindowMouseUp; Click]
       = Some w2
    /\ writes (effects_since idle_world w1) = [JSON_stringify (Obj_xy 0 0)]
    /\ writes (effects_since idle_world w2) = [JSON_stringify (Obj_xy 0 0)]
    /\ ~ click_navigates_without_write idle_world w1
    /\ ~ click_navigates_without_write idle_world w2.
Proof.
  eexists _, _. split; [vm_compute; reflexivity|].
  split; [vm_compute; reflexivity|].
  split; [reflexivity|]. split; [reflexivity|].
  split; intros [_ H]; vm_compute in H; discriminate H.
Qed.

(** C2, amended.  On the idle control, a primary press followed by the
    release, with no movement between, calls [setItem] exactly once,
    with the position held at the press, and navigates not at all; the
    click that follows navigates exactly once and writes nothing. *)
Theorem C2_press_release_click
        (ls : Storage) (tr : list Event) (w : World) (e : MouseEvent) :
  session ls tr = Some w ->
  mounted w = true ->
  isDragging (state w) = false ->
  has_coords (position (state w)) = true ->
  button e = 0 ->
  exists w1 w2,
    run w [MouseDown e; WindowMouseUp] = Some w1
    /\ step w1 Click = Some w2
    /\ writes (effects_since w w1) = [JSON_stringify (position (state w))]
    /\ navigations (effects_since w w1) = []
    /\ navigations (effects_since w1 w2) = ["terminal"]
    /\ writes (effects_since w1 w2) = []
    /\ position (state w2) = position (state w)
    /\ isDragging (state w2) = false.
Proof.
  intros Hs Hm Hg Hc Hb.
  pose proof (session_inv _ _ _ Hs) as HI.
  destruct (step_mouse_down w e HI Hm Hc Hb)
    as (wa & c & Sa & Ma & Ga & Pa & La & Loga & _ & Ua & _ & Pc & _).
  pose proof (step_inv _ _ _ HI Sa) as HIa.
  destruct (step_mouse_up wa c HIa Ma Ga Ua)
    as (wb & Sb & Mb & Gb & Pb & _ & _ & Ob).
  assert (Hcb : has_coords (position (state wb)) = true) by (rewrite Pb, Pa; exact Hc).
  destruct (step_click wb Mb Hcb) as (wc & Sc & Logc & _ & Stc).
  rewrite Gb in Logc.
  exists wb, wc. cbn [run]. rewrite Sa, Sb.
  split; [reflexivity|]. split; [exact Sc|].
  rewrite (effects_since_app wb wc _ Logc).
  rewrite Stc, Gb, Pb, Pa.
  unfold release_outcome in Ob. rewrite Pc, La in Ob.
  destruct (setItem (localStorage w) terminalButtonPosition
                    (JSON_stringify (position (state w))));
    destruct Ob as [_ Logb]; rewrite Loga, <- app_assoc in Logb;
    rewrite (effects_since_app w wb _ Logb); cbn; auto 10.
Qed.

Lemma C2_press_release_click_witness :
  session empty_storage [] = Some idle_world
  /\ mounted idle_world = true
  /\ isDragging (state idle_world) = false
  /\ has_coords (position (state idle_world)) = true
  /\ button (primary 940 740) = 0
  /\ exists w1 w2,
      run idle_world [MouseDown (primary 940 740); WindowMouseUp] = Some w1
      /\ step w1 Click = Some w2
      /\ writes (effects_since idle_world w1) = [JSON_stringify (Obj_xy 0 0)]
      /\ navigations (effects_since idle_world w1) = []
      /\ navigations (effects_since w1 w2) = ["terminal"]
      /\ writes (effects_since w1 w2) = []
      /\ position (state w2) = Obj_xy 0 0
      /\ isDragging (state w2) = false.
Proof.
  repeat (split; [reflexivity|]).
  exact (C2_press_release_click empty_storage [] idle_world (primary 940 740)
           eq_refl eq_refl eq_refl eq_refl eq_refl).
Defined.

(** ** C3: the clamp of [handleMouseMove] *)

(** C3. For every pointer position, hence every proposed position, and
    all sizes of the control and of the viewport, the position that
    [handleMouseMove] sets has 0 <= x <= max(0, viewportW - controlW)
    and 0 <= y <= max(0, viewportH - controlH); on an axis where the
    viewport is smaller than the control the result is 0. *)
Theorem C3_clamp_bounds (r : State) (pg : Page) (e : MouseEvent) :
  isDragging r = true ->
  exists bx yb,
    handleMouseMove r pg e = [setPosition (Obj_xy bx yb)]
    /\ 0 <= bx <= Z.max 0 (innerWidth pg - or_zero (option_map offsetWidth (buttonRef_current pg)))
    /\ 0 <= yb <= Z.max 0 (innerHeight pg - or_zero (option_map offsetHeight (buttonRef_current pg)))
    /\ (innerWidth pg < or_zero (option_map offsetWidth (buttonRef_current pg)) -> bx = 0)
    /\ (innerHeight pg < or_zero (option_map offsetHeight (buttonRef_current pg)) -> yb = 0).
Proof.
  intros Hg. unfold handleMouseMove. rewrite Hg. cbn [negb].
  eexists _, _. split; [reflexivity|].
  repeat split; try lia.
Qed.

Lemma C3_clamp_bounds_witness :
  isDragging dragging_from_origin = true
  /\ exists bx yb,
      handleMouseMove dragging_from_origin page_1000x800 (primary (-40) 2000)
      = [setPosition (Obj_xy bx yb)]
      /\ 0 <= bx <= Z.max 0 (1000 - 48) /\ 0 <= yb <= Z.max 0 (800 - 48)
      /\ (1000 < 48 -> bx = 0) /\ (800 < 48 -> yb = 0).
Proof.
  split; [reflexivity|].
  exact (C3_clamp_bounds dragging_from_origin page_1000x800 (primary (-40) 2000)
           eq_refl).
Defined.

(** ** C4: what the load effect does with the stored text *)

(** C4, counterexample.  A stored text that parses but has a string for
    [x] is not reported absent: it becomes the position of the mounted
    control. *)
Lemma C4_counterexample :
  JSON_parse payload_x_left = Parsed (JObj [("x", JStr "left"); ("y", JNum 10)])
  /\ has_coords (JObj [("x", JStr "left"); ("y", JNum 10)]) = false
  /\ (exists w,
         mount (storage_with payload_x_left) = Some w
         /\ mounted w = true
         /\ position (state w) = JObj [("x", JStr "left"); ("y", JNum 10)])
  /\ ~ load_reports_absent (storage_with payload_x_left).
Proof.
  split; [vm_compute; reflexivity|]. split; [reflexivity|]. split.
  - eexists. split; [vm_compute; reflexivity|]. split; reflexivity.
  - intros (w & Hm & Hp & _). vm_compute in Hm. injection Hm as <-.
    vm_compute in Hp. discriminate Hp.
Qed.

(** C4, amended.  Whatever text is stored and whatever [JSON.parse]
    answers on it: an absent key and an empty text leave the position at
    the sentinel (0,0) without raising; so does a text that
    [JSON.parse] rejects, which is logged.  A text that [JSON.parse]
    accepts is passed to [setPosition] as it is, whatever its shape: the
    load effect validates nothing.  The control is then mounted on that
    value, with nothing logged, whenever the render that follows does
    not throw on it, as it does not for a value with numeric [x] and
    [y]. *)
Theorem C4_load_effect (parse : string -> parse_result) (ls : Storage) :
  (getItem ls terminalButtonPosition = None
   \/ getItem ls terminalButtonPosition = Some "" ->
   exists w,
     mount_with parse ls = Some w /\ mounted w = true
     /\ position (state w) = Obj_xy 0 0 /\ log w = [])
  /\ (forall s,
         getItem ls terminalButtonPosition = Some s -> s <> "" ->
         parse s = SyntaxError ->
         exists w,
           mount_with parse ls = Some w /\ mounted w = true
           /\ position (state w) = Obj_xy 0 0
           /\ log w = [ErrorLogged "Failed to parse saved position"])
  /\ (forall s v,
         getItem ls terminalButtonPosition = Some s -> s <> "" ->
         parse s = Parsed v ->
         load_effect_with parse ls = Some [setPosition v]
         /\ (has_coords v = true ->
             render_throws (set_position initial_state v) = false)
         /\ exists w,
             mount_with parse ls = Some w
             /\ (render_throws (set_position initial_state v) = false ->
                 mounted w = true /\ position (state w) = v /\ log w = [])).
Proof.
  split; [|split].
  - intros H.
    assert (E : load_effect_with parse ls = Some []).
    { unfold load_effect_with. destruct H as [-> | ->]; reflexivity. }
    destruct (mount_with_of_load parse ls _ E) as (w & Hm & Hs & Hok & _).
    exists w. rewrite Hs in *. cbn in *.
    destruct (Hok eq_refl) as [M L]. auto.
  - intros s Hg Hne Hp.
    assert (E : load_effect_with parse ls
                = Some [console_error "Failed to parse saved position"]).
    { unfold load_effect_with. rewrite Hg.
      apply length_zero_empty in Hne. now rewrite Hne, Hp. }
    destruct (mount_with_of_load parse ls _ E) as (w & Hm & Hs & Hok & _).
    exists w. rewrite Hs in *. cbn in *.
    destruct (Hok eq_refl) as [M L]. auto.
  - intros s v Hg Hne Hp.
    assert (E : load_effect_with parse ls = Some [setPosition v]).
    { unfold load_effect_with. rewrite Hg.
      apply length_zero_empty in Hne. now rewrite Hne, Hp. }
    split; [exact E|]. split; [apply coords_render|].
    destruct (mount_with_of_load parse ls _ E) as (w & Hm & Hs & Hok & _).
    exists w. rewrite Hs in *. cbn in *.
    split; [exact Hm|].
    intros Hr. destruct (Hok Hr) as [M L]. auto.
Qed.

Lemma C4_load_effect_witness :
  getItem (storage_with payload_truncated) terminalButtonPosition
  = Some payload_truncated
  /\ payload_truncated <> ""
  /\ JSON_parse payload_truncated = SyntaxError
  /\ exists w,
      mount (storage_with payload_truncated) = Some w
      /\ mounted w = true
      /\ position (state w) = Obj_xy 0 0
      /\ log w = [ErrorLogged "Failed to parse saved position"].
Proof.
  assert (Hne : payload_truncated <> "") by discriminate.
  split; [reflexivity|]. split; [exact Hne|]. split; [reflexivity|].
  exact (proj1 (proj2 (C4_load_effect JSON_parse (storage_with payload_truncated)))
           payload_truncated eq_refl Hne eq_refl).
Defined.

(** ** C5: the listeners of [window] *)

(** C5. In every reachable world the pointer-move and pointer-up
    listeners of [window] are registered only while the control is
    mounted and dragging; after a pointer release, and after the
    component is unmounted, in the middle of a drag or not, none is
    registered, and a pointer-move that follows changes no position. *)
Theorem C5_listener_hygiene (ls : Storage) (tr : list Event) (w : World) :
  session ls tr = Some w ->
  (mousemove_listeners w <> [] \/ mouseup_listeners w <> [] ->
   mounted w = true /\ isDragging (state w) = true)
  /\ (forall ev w1,
         ev = WindowMouseUp \/ ev = Unmount ->
         step w ev = Some w1 ->
         mousemove_listeners w1 = [] /\ mouseup_listeners w1 = []
         /\ forall pg e,
             exists w2,
               step w1 (WindowMouseMove pg e) = Some w2
               /\ position (state w2) = position (state w1))
  /\ (has_coords (position (state w)) = true ->
      exists w1 w2, step w WindowMouseUp = Some w1 /\ step w Unmount = Some w2).
Proof.
  intros Hs. pose proof (session_inv _ _ _ Hs) as HI. split; [|split].
  3:{ intros Hc.
      destruct (step_total w WindowMouseUp HI Hc) as (w1 & S1 & _).
      destruct (step_total w Unmount HI Hc) as (w2 & S2 & _). eauto. }
  - pose proof (inv_listeners w HI) as Hl. unfold listeners_of in Hl.
    destruct (mounted w), (isDragging (state w)); cbn in Hl; auto;
      destruct Hl as [-> ->]; intros [H | H]; now contradiction H.
  - intros ev w1 Hev Hst.
    pose proof (step_inv _ _ _ HI Hst) as HI1.
    destruct (released_or_unmounted w w1 ev HI Hev Hst) as (Hoff & _ & Hc).
    pose proof (inv_listeners w1 HI1) as Hl. unfold listeners_of in Hl.
    rewrite Hoff in Hl. destruct Hl as [Emm Emu].
    split; [exact Emm|]. split; [exact Emu|].
    intros pg e. now apply move_without_listeners.
Qed.

Lemma C5_listener_hygiene_witness :
  session empty_storage [MouseDown (primary 940 740)] = Some dragging_world
  /\ (forall ev w1,
         ev = WindowMouseUp \/ ev = Unmount ->
         step dragging_world ev = Some w1 ->
         mousemove_listeners w1 = [] /\ mouseup_listeners w1 = []
         /\ forall pg e,
             exists w2,
               step w1 (WindowMouseMove pg e) = Some w2
               /\ position (state w2) = position (state w1)).
Proof.
  split; [reflexivity|].
  exact (proj1 (proj2 (C5_listener_hygiene
                         empty_storage [MouseDown (primary 940 740)] dragging_world
                         eq_refl))).
Defined.

(** ** C6: keyboard activation *)

(** C6, counterexample.  With the primary button held down on the
    control, Enter does not navigate. *)
Lemma C6_counterexample :
  exists w,
    session empty_storage [MouseDown (primary 940 740)] = Some w
    /\ mounted w = true
    /\ ~ keyboard_activation_navigates w "Enter".
Proof.
  eexists. split; [vm_compute; reflexivity|]. split; [reflexivity|].
  intros (w' & Hs & Hn & _). vm_compute in Hs. injection Hs as <-.
  vm_compute in Hn. discriminate Hn.
Qed.

(** C6, amended.  On the mounted control, Enter or Space suppresses the
    key's default and writes nothing to the position store; it navigates
    exactly once when no drag is in progress, and not at all while one
    is ([handleClick] is guarded by [isDragging]). *)
Theorem C6_keyboard_activation (w : World) (key : string) :
  mounted w = true ->
  has_coords (position (state w)) = true ->
  key = "Enter" \/ key = " " ->
  exists w',
    step w (KeyDown key) = Some w'
    /\ log w' = (log w ++ DefaultPrevented ::
                   (if isDragging (state w) then [] else [Navigated "terminal"]))%list
    /\ localStorage w' = localStorage w
    /\ state w' = state w.
Proof.
  intros Hm Hc Hk. unfold step. rewrite Hm.
  destruct (buttonStyle (state w)) eqn:Hs;
    [|apply buttonStyle_coords in Hc; congruence].
  eexists. split; [reflexivity|].
  destruct (commit_frame (exec w (handleKeyDown (state w) key))) as (Es & El & Est & _).
  rewrite Es, El, Est.
  assert (Ek : handleKeyDown (state w) key = preventDefault :: handleClick (state w))
    by (destruct Hk as [-> | ->]; reflexivity).
  rewrite Ek. unfold handleClick.
  destruct (isDragging (state w)); cbn; rewrite <- ?app_assoc; auto.
Qed.

Lemma C6_keyboard_activation_witness :
  mounted idle_world = true
  /\ has_coords (position (state idle_world)) = true
  /\ exists w',
      step idle_world (KeyDown " ") = Some w'
      /\ log w' = [DefaultPrevented; Navigated "terminal"]
      /\ localStorage w' = empty_storage
      /\ state w' = initial_state.
Proof.
  split; [reflexivity|]. split; [reflexivity|].
  exact (C6_keyboard_activation idle_world " " eq_refl eq_refl (or_intror eq_refl)).
Defined.

(** ** C7: a saved position is the one restored *)



(** ** C8: a write that fails *)

(** C8, counterexample.  On a full store the release throws
    [QuotaExceededError] out of [handleMouseUp], and logs nothing. *)
Lemma C8_counterexample :
  exists w w',
    session full_storage [MouseDown (primary 940 740)] = Some w
    /\ setItem (localStorage w) terminalButtonPosition
         (JSON_stringify (Obj_xy 0 0)) = None
    /\ step w WindowMouseUp = Some w'
    /\ effects_since w w'
       = [SetItemCalled terminalButtonPosition (JSON_stringify (Obj_xy 0 0));
          Uncaught QuotaExceededError]
    /\ ~ failure_swallowed_and_logged w w'.
Proof.
  eexists _, _. split; [vm_compute; reflexivity|].
  split; [reflexivity|]. split; [vm_compute; reflexivity|].
  split; [reflexivity|].
  intros [H _]. apply (H QuotaExceededError). vm_compute. auto.
Qed.

(** C8, amended.  When the write of a release fails, [handleMouseUp]
    neither catches nor logs the failure: the exception leaves the
    handler uncaught.  The drag has ended all the same, the listeners
    are removed, and the position shown and the store are unchanged. *)
Theorem C8_failed_write_is_uncaught
        (ls : Storage) (tr : list Event) (w : World) (c : Closure) :
  session ls tr = Some w ->
  mounted w = true ->
  isDragging (state w) = true ->
  mouseup_listeners w = [c] ->
  setItem (localStorage w) terminalButtonPosition
          (JSON_stringify (position (captured c))) = None ->
  exists w',
    step w WindowMouseUp = Some w'
    /\ effects_since w w'
       = [SetItemCalled terminalButtonPosition
            (JSON_stringify (position (captured c)));
          Uncaught QuotaExceededError]
    /\ isDragging (state w') = false
    /\ position (state w') = position (state w)
    /\ localStorage w' = localStorage w
    /\ mousemove_listeners w' = [] /\ mouseup_listeners w' = [].
Proof.
  intros Hs Hm Hg Hu Hn.
  pose proof (session_inv _ _ _ Hs) as HI.
  destruct (step_mouse_up w c HI Hm Hg Hu)
    as (w' & S' & _ & G' & P' & Lm & Lu & O').
  unfold release_outcome in O'. rewrite Hn in O'. destruct O' as [St Lg].
  exists w'. rewrite (effects_since_app w w' _ Lg). auto 10.
Qed.

Lemma C8_failed_write_is_uncaught_witness :
  session full_storage [MouseDown (primary 940 740)] = Some dragging_on_full_storage
  /\ mounted dragging_on_full_storage = true
  /\ isDragging (state dragging_on_full_storage) = true
  /\ setItem full_storage terminalButtonPosition (JSON_stringify (Obj_xy 0 0)) = None
  /\ exists w',
      step dragging_on_full_storage WindowMouseUp = Some w'
      /\ effects_since dragging_on_full_storage w'
         = [SetItemCalled terminalButtonPosition (JSON_stringify (Obj_xy 0 0));
            Uncaught QuotaExceededError]
      /\ isDragging (state w') = false
      /\ position (state w') = Obj_xy 0 0
      /\ localStorage w' = full_storage
      /\ mousemove_listeners w' = [] /\ mouseup_listeners w' = [].
Proof.
  repeat (split; [reflexivity|]).
  exact (C8_failed_write_is_uncaught
           full_storage [MouseDown (primary 940 740)] dragging_on_full_storage _
           eq_refl eq_refl eq_refl eq_refl eq_refl).
Defined.

(** ** C9: the position while dragging *)




(** ** C10: the default anchor is chosen per axis *)

(** C10. The style uses the default bottom anchor exactly when y = 0 and
    the default right anchor exactly when x = 0, each axis on its own;
    so a position with a zero coordinate, such as the one a drag to the
    left or top edge of the viewport sets, is rendered on that axis at
    the default corner and not at coordinate 0. *)
Theorem C10_sentinel_per_axis (r : State) (px py : Z) :
  num_prop (position r) "x" = Some px ->
  num_prop (position r) "y" = Some py ->
  (exists st,
      buttonStyle r = Some st
      /\ bottom st = (if py =? 0 then "1.5rem" else "auto")
      /\ top st = (if py =? 0 then "auto" else Number_toString py ++ "px")
      /\ right st = (if px =? 0 then "1.5rem" else "auto")
      /\ left st = (if px =? 0 then "auto" else Number_toString px ++ "px"))
  /\ (forall (d : State) (pg : Page) (e : MouseEvent),
         isDragging d = true ->
         (clientX e - x (initialPos d) <= 0 ->
          exists yb st,
            handleMouseMove d pg e = [setPosition (Obj_xy 0 yb)]
            /\ buttonStyle (set_position r (Obj_xy 0 yb)) = Some st
            /\ right st = "1.5rem" /\ left st = "auto")
         /\ (clientY e - y (initialPos d) <= 0 ->
             exists bx st,
               handleMouseMove d pg e = [setPosition (Obj_xy bx 0)]
               /\ buttonStyle (set_position r (Obj_xy bx 0)) = Some st
               /\ bottom st = "1.5rem" /\ top st = "auto")).
Proof.
  intros Hx Hy. split.
  - unfold buttonStyle. rewrite Hx, Hy. eexists. split; [reflexivity|].
    cbn. destruct (py =? 0), (px =? 0); repeat split.
  - intros d pg e Hg. unfold handleMouseMove. rewrite Hg. cbn [negb].
    split; intros Hle.
    + rewrite (Z.max_l 0 (Z.min (clientX e - x (initialPos d)) _)) by lia.
      eexists _, _. split; [reflexivity|]. split; [reflexivity|].
      split; reflexivity.
    + rewrite (Z.max_l 0 (Z.min (clientY e - y (initialPos d)) _)) by lia.
      eexists _, _. split; [reflexivity|]. split; [reflexivity|].
      split; reflexivity.
Qed.

Lemma C10_sentinel_per_axis_witness :
  num_prop (position (state_at 0 240)) "x" = Some 0
  /\ num_prop (position (state_at 0 240)) "y" = Some 240
  /\ exists st,
      buttonStyle (state_at 0 240) = Some st
      /\ bottom st = "auto" /\ top st = "240px"
      /\ right st = "1.5rem" /\ left st = "auto".
Proof.
  split; [reflexivity|]. split; [reflexivity|].
  exact (proj1 (C10_sentinel_per_axis (state_at 0 240) 0 240 eq_refl eq_refl)).
Defined.

(** * Further properties of the component *)

(** ** One event, seen through the handlers it reaches *)

Lemma run_app (l1 l2 : list Event) :
  forall w, run w (l1 ++ l2)%list
            = match run w l1 with Some w1 => run w1 l2 | None => None end.
Proof.
  induction l1 as [|ev l1 IH]; intros w; cbn; [reflexivity|].
  destruct (step w ev); [apply IH | reflexivity].
Qed.

Lemma step_shape (w w' : World) (ev : Event) :
  Inv w -> step w ev = Some w' ->
  (mounted w = false /\ w' = w)
  \/ (mounted w = true /\ ev = Unmount
      /\ w' = with_mounted (listener_cleanup w (effect_render w)) false)
  \/ (mounted w = true /\ has_coords (position (state w)) = true
      /\ exists acts, event_actions w ev acts /\ w' = commit (exec w acts)).
Proof.
  intros HI Hs. pose proof HI as [Hd Hf Hl Hn]. unfold step in Hs.
  unfold listeners_of in Hl.
  destruct (mounted w) eqn:Hm.
  - destruct (buttonStyle (state w)) eqn:Hb; [|discriminate].
    assert (Hc : has_coords (position (state w)) = true)
      by (apply buttonStyle_coords; congruence).
    destruct ev; try (right; left; injection Hs as <-; now auto);
      right; right; (split; [reflexivity|]); (split; [exact Hc|]).
    + unfold handleMouseDown in Hs.
      destruct (button e =? 0) eqn:Hb0; cbn [negb] in Hs.
      * apply Z.eqb_eq in Hb0. unfold has_coords in Hc.
        destruct (num_prop (position (state w)) "x") as [px|] eqn:Ex; [|discriminate].
        destruct (num_prop (position (state w)) "y") as [py|] eqn:Ey; [|discriminate].
        injection Hs as <-. eexists. split; [eapply ea_down_primary; eassumption|reflexivity].
      * apply Z.eqb_neq in Hb0. injection Hs as <-.
        eexists. split; [now apply ea_down_other|reflexivity].
    + injection Hs as <-. eexists. split; [constructor|reflexivity].
    + injection Hs as <-. eexists. split; [constructor|reflexivity].
    + injection Hs as <-. eexists. split; [constructor|reflexivity].
    + injection Hs as <-. eexists. split; [constructor|reflexivity].
    + injection Hs as <-. eexists. split; [constructor|reflexivity].
    + injection Hs as <-. eexists. split; [constructor|reflexivity].
    + injection Hs as <-. destruct (isDragging (state w)) eqn:Hg; cbn in Hl.
      * destruct Hl as (c0 & Emm & Emu & _ & Eg & Ep). rewrite Emm.
        cbn [flat_map]. unfold handleMouseMove. rewrite Eg, Ep.
        cbn [negb app]. eexists.
        split; [now apply (ea_move_drag w pg e c0)|reflexivity].
      * destruct Hl as [Emm _]. rewrite Emm. cbn [flat_map].
        eexists. split; [now apply ea_move_idle|reflexivity].
    + injection Hs as <-. destruct (isDragging (state w)) eqn:Hg; cbn in Hl.
      * destruct Hl as (c0 & Emm & Emu & _ & Eg & Ep). rewrite Emu.
        cbn [flat_map]. unfold handleMouseUp. rewrite Eg. cbn [app].
        eexists. split; [now apply (ea_up_drag w c0)|reflexivity].
      * destruct Hl as [_ Emu]. rewrite Emu. cbn [flat_map].
        eexists. split; [now apply ea_up_idle|reflexivity].
  - left. split; [reflexivity|]. cbn in Hl. destruct Hl as [Emm Emu].
    rewrite Emm, Emu in Hs. destruct ev; now injection Hs as <-.
Qed.

Lemma actions_state (w : World) (ev : Event) (acts : list Action) :
  event_actions w ev acts ->
  isHovered (state (exec w acts))
  = match is_hover ev with Some b => b | None => isHovered (state w) end
  /\ (position (state (exec w acts)) = position (state w)
      \/ exists pg e,
          ev = WindowMouseMove pg e /\ isDragging (state w) = true
          /\ position (state (exec w acts))
             = Obj_xy (Z.max 0 (Z.min (clientX e - x (initialPos (state w))) (maxX pg)))
                      (Z.max 0 (Z.min (clientY e - y (initialPos (state w))) (maxY pg)))).
Proof.
  intros H. destruct H; cbn [exec is_hover];
    try (split; [reflexivity | left; reflexivity]).
  - unfold handleClick. destruct (negb _); split; auto.
  - unfold handleKeyDown, handleClick.
    destruct (_ || _); [destruct (negb _)|]; split; auto.
  - split; [reflexivity|]. right. exists pg, e. auto.
  - destruct (setItem _ _ _); split; auto.
Qed.

Lemma actions_log (w : World) (ev : Event) (acts : list Action) :
  event_actions w ev acts ->
  exists l,
    log (exec w acts) = (log w ++ l)%list
    /\ Forall disciplined l
    /\ navigations l
       = (if negb (isDragging (state w)) && is_activation ev
          then ["terminal"] else [])
    /\ (List.length (writes l) <= (if is_release ev then 1 else 0))%nat.
Proof.
  intros H. destruct H; cbn [exec is_activation is_release];
    rewrite ?Bool.andb_false_r;
    try (exists []; cbn; rewrite app_nil_r; repeat split; auto; fail).
  - exists [DefaultPrevented]. cbn. repeat split; auto. repeat constructor.
  - unfold handleClick. rewrite Bool.andb_true_r.
    destruct (negb (isDragging (state w))); cbn.
    + exists [Navigated "terminal"]. repeat split; auto. repeat constructor.
    + exists []. rewrite app_nil_r. repeat split; auto.
  - unfold handleKeyDown, handleClick.
    destruct (String.eqb key "Enter" || String.eqb key " ");
      rewrite ?Bool.andb_true_r, ?Bool.andb_false_r.
    + destruct (negb (isDragging (state w))); cbn.
      * exists [DefaultPrevented; Navigated "terminal"].
        rewrite <- app_assoc. repeat split; auto. repeat constructor.
      * exists [DefaultPrevented]. repeat split; auto. repeat constructor.
    + exists []. cbn. rewrite app_nil_r. repeat split; auto.
  - destruct (setItem _ _ _); cbn.
    + eexists [SetItemCalled _ _]. repeat split; auto. repeat constructor.
    + eexists [SetItemCalled _ _; Uncaught _]. rewrite <- app_assoc.
      repeat split; auto. repeat constructor.
Qed.

Lemma getItem_setItem_in_other (l : list (string * string)) (k k' v : string) :
  k' <> k -> getItem_in (setItem_in l k v) k' = getItem_in l k'.
Proof.
  intros Hne. apply String.eqb_neq in Hne.
  induction l as [|[k0 v0] l IH]; cbn.
  - now rewrite Hne.
  - destruct (String.eqb k k0) eqn:E; cbn.
    + apply String.eqb_eq in E. subst k0. now rewrite Hne.
    + now rewrite IH.
Qed.

Lemma setItem_frame (ls ls' : Storage) (k v : string) :
  setItem ls k v = Some ls' ->
  quota ls' = quota ls
  /\ forall k', k' <> k -> getItem ls' k' = getItem ls k'.
Proof.
  unfold setItem, getItem. destruct (N.leb _ _); [|discriminate].
  intros [= <-]. cbn. split; [reflexivity|].
  intros k' Hne. now apply getItem_setItem_in_other.
Qed.

Lemma actions_storage (w : World) (ev : Event) (acts : list Action) :
  event_actions w ev acts ->
  quota (localStorage (exec w acts)) = quota (localStorage w)
  /\ (forall k, k <> terminalButtonPosition ->
                getItem (localStorage (exec w acts)) k = getItem (localStorage w) k)
  /\ (is_release ev = false -> localStorage (exec w acts) = localStorage w).
Proof.
  intros H. destruct H; cbn [exec is_release];
    try (repeat split; reflexivity).
  - unfold handleClick. destruct (negb _); repeat split; reflexivity.
  - unfold handleKeyDown, handleClick.
    destruct (_ || _); [destruct (negb _)|]; repeat split; reflexivity.
  - cbn. destruct (setItem (localStorage w) _ _) as [ls|] eqn:E; cbn.
    + destruct (setItem_frame _ _ _ _ E) as [Q G].
      split; [exact Q|]. split; [exact G|]. discriminate.
    + split; [reflexivity|]. split; [reflexivity|]. discriminate.
Qed.

Lemma effects_since_refl (w : World) : effects_since w w = [].
Proof. unfold effects_since. apply skipn_all. Qed.

(** What one event adds to the log and does to the store. *)
Lemma step_effects (w w' : World) (ev : Event) :
  Inv w -> step w ev = Some w' ->
  exists l,
    log w' = (log w ++ l)%list
    /\ Forall disciplined l
    /\ navigations l
       = (if mounted w && negb (isDragging (state w)) && is_activation ev
          then ["terminal"] else [])
    /\ (List.length (writes l) <= (if is_release ev then 1 else 0))%nat
    /\ quota (localStorage w') = quota (localStorage w)
    /\ (forall k, k <> terminalButtonPosition ->
                  getItem (localStorage w') k = getItem (localStorage w) k)
    /\ (is_release ev = false -> localStorage w' = localStorage w).
Proof.
  intros HI Hs.
  destruct (step_shape w w' ev HI Hs)
    as [[Hm ->] | [(Hm & -> & ->) | (Hm & Hc & acts & Ha & ->)]].
  - exists []. rewrite Hm, app_nil_r. cbn. repeat split; auto; lia.
  - exists []. rewrite app_nil_r, Bool.andb_false_r. cbn. repeat split; auto.
  - destruct (commit_frame (exec w acts)) as (_ & El & Est & _).
    rewrite El, Est, Hm. cbn [andb].
    destruct (actions_log w ev acts Ha) as (l & Hl & Hd & Hn & Hw).
    destruct (actions_storage w ev acts Ha) as (Hq & Hk & Hr).
    exists l. auto 10.
Qed.

Lemma mount_start (ls : Storage) (w : World) :
  mount ls = Some w ->
  localStorage w = ls
  /\ Forall disciplined (log w) /\ writes (log w) = [] /\ navigations (log w) = [].
Proof.
  unfold mount, mount_with.
  destruct (load_effect_with JSON_parse ls) as [acts|] eqn:E; [|discriminate].
  destruct (load_effect_with_cases _ _ _ E) as [-> | [[msg ->] | [v ->]]];
    (destruct (render_throws _); intros [= <-];
     [unfold crash
     |match goal with |- context [commit ?u] =>
        destruct (commit_frame u) as (_ & El & Est & _); rewrite El, Est
      end];
     cbn; repeat split; auto; repeat constructor).
Qed.

Lemma run_effects (tr : list Event) :
  forall w w',
    Inv w -> run w tr = Some w' ->
    exists l,
      log w' = (log w ++ l)%list
      /\ Forall disciplined l
      /\ (List.length (writes l) <= List.length (filter is_release tr))%nat
      /\ (List.length (navigations l) <= List.length (filter is_activation tr))%nat
      /\ quota (localStorage w') = quota (localStorage w)
      /\ (forall k, k <> terminalButtonPosition ->
                    getItem (localStorage w') k = getItem (localStorage w) k).
Proof.
  induction tr as [|ev tr IH]; intros w w' HI Hr; cbn in Hr.
  - injection Hr as <-. exists []. rewrite app_nil_r. cbn. repeat split; auto.
  - destruct (step w ev) as [w1|] eqn:Hs; [|discriminate].
    destruct (step_effects w w1 ev HI Hs) as (l1 & L1 & D1 & N1 & W1 & Q1 & K1 & _).
    destruct (IH w1 w' (step_inv _ _ _ HI Hs) Hr) as (l2 & L2 & D2 & W2 & N2 & Q2 & K2).
    exists (l1 ++ l2)%list. rewrite L2, L1, <- app_assoc.
    split; [reflexivity|]. split; [now apply Forall_app|].
    unfold writes, navigations in *. rewrite !flat_map_app, !length_app.
    cbn [filter]. rewrite N1.
    split; [|split; [|split]].
    + destruct (is_release ev); cbn [List.length]; lia.
    + destruct (mounted w && negb (isDragging (state w))); cbn [andb];
        destruct (is_activation ev); cbn [List.length]; lia.
    + congruence.
    + intros k Hk. rewrite K2, K1; auto.
Qed.

(** ** Presses that are not of the primary button *)

(** X1. A press of another button than the primary one is ignored
    altogether: no drag starts, no listener is registered, the default
    of the event is not suppressed, nothing is written and the state is
    as before. *)
Theorem non_primary_press_is_ignored
        (ls : Storage) (tr : list Event) (w : World) (e : MouseEvent) :
  session ls tr = Some w ->
  mounted w = true ->
  has_coords (position (state w)) = true ->
  button e <> 0 ->
  exists w',
    step w (MouseDown e) = Some w'
    /\ state w' = state w
    /\ log w' = log w
    /\ localStorage w' = localStorage w
    /\ mousemove_listeners w' = mousemove_listeners w
    /\ mouseup_listeners w' = mouseup_listeners w.
Proof.
  intros Hs Hm Hc Hb.
  pose proof (session_inv _ _ _ Hs) as [Hd _ _ _].
  unfold step. rewrite Hm.
  destruct (buttonStyle (state w)) eqn:E;
    [|apply buttonStyle_coords in Hc; congruence].
  unfold handleMouseDown. apply Z.eqb_neq in Hb. rewrite Hb. cbn [negb exec].
  rewrite (commit_same w Hd). eexists. split; [reflexivity|]. cbn. auto.
Qed.

Lemma non_primary_press_is_ignored_witness :
  session empty_storage [] = Some idle_world
  /\ mounted idle_world = true
  /\ has_coords (position (state idle_world)) = true
  /\ button (secondary 940 740) <> 0
  /\ exists w',
      step idle_world (MouseDown (secondary 940 740)) = Some w'
      /\ state w' = initial_state
      /\ log w' = []
      /\ localStorage w' = empty_storage
      /\ mousemove_listeners w' = []
      /\ mouseup_listeners w' = [].
Proof.
  assert (Hb : button (secondary 940 740) <> 0) by discriminate.
  repeat (split; [reflexivity|]). split; [exact Hb|].
  exact (non_primary_press_is_ignored empty_storage [] idle_world
           (secondary 940 740) eq_refl eq_refl eq_refl Hb).
Defined.

(** ** What writes and what navigates *)

(** X2. Only the release of the pointer writes: every other event leaves
    [localStorage] as it is and calls [setItem] not at all; pointer
    moves in particular, however many, persist nothing. *)
Theorem only_release_writes
        (ls : Storage) (tr : list Event) (w w' : World) (ev : Event) :
  session ls tr = Some w ->
  step w ev = Some w' ->
  is_release ev = false ->
  localStorage w' = localStorage w /\ writes (effects_since w w') = [].
Proof.
  intros Hs Hst Hr.
  destruct (step_effects w w' ev (session_inv _ _ _ Hs) Hst)
    as (l & L & _ & _ & W & _ & _ & S).
  rewrite Hr in W. split; [now apply S|].
  rewrite (effects_since_app w w' l L).
  destruct (writes l); [reflexivity | cbn in W; lia].
Qed.

Lemma only_release_writes_witness :
  session empty_storage [MouseDown (primary 940 740)] = Some dragging_world
  /\ step dragging_world (WindowMouseMove page_1000x800 (primary 990 790))
     = Some moved_world
  /\ is_release (WindowMouseMove page_1000x800 (primary 990 790)) = false
  /\ localStorage moved_world = localStorage dragging_world
  /\ writes (effects_since dragging_world moved_world) = [].
Proof.
  split; [reflexivity|]. split; [reflexivity|]. split; [reflexivity|].
  exact (only_release_writes empty_storage [MouseDown (primary 940 740)]
           dragging_world moved_world
           (WindowMouseMove page_1000x800 (primary 990 790))
           eq_refl eq_refl eq_refl).
Defined.

(** X3. An event navigates exactly when it is a click, or Enter or
    Space, on the mounted control while no drag is in progress, and then
    once, to ["terminal"]; no other event navigates. *)
Theorem navigation_exactly_on_activation
        (ls : Storage) (tr : list Event) (w w' : World) (ev : Event) :
  session ls tr = Some w ->
  step w ev = Some w' ->
  navigations (effects_since w w')
  = (if mounted w && negb (isDragging (state w)) && is_activation ev
     then ["terminal"] else []).
Proof.
  intros Hs Hst.
  destruct (step_effects w w' ev (session_inv _ _ _ Hs) Hst)
    as (l & L & _ & N & _).
  now rewrite (effects_since_app w w' l L).
Qed.

Lemma navigation_exactly_on_activation_witness :
  session empty_storage [] = Some idle_world
  /\ step idle_world Click = Some clicked_world
  /\ navigations (effects_since idle_world clicked_world) = ["terminal"].
Proof.
  split; [reflexivity|]. split; [reflexivity|].
  exact (navigation_exactly_on_activation
           empty_storage [] idle_world clicked_world Click eq_refl eq_refl).
Defined.

(** X4. Over a whole session the component calls [setItem] at most once
    per pointer release and navigates at most once per click or
    activation key; every write goes to the key
    ["terminalButtonPosition"] and every navigation to ["terminal"]. *)
Theorem session_effects_are_bounded
        (ls : Storage) (tr : list Event) (w : World) :
  session ls tr = Some w ->
  Forall disciplined (log w)
  /\ (List.length (writes (log w)) <= List.length (filter is_release tr))%nat
  /\ (List.length (navigations (log w))
      <= List.length (filter is_activation tr))%nat.
Proof.
  unfold session. destruct (mount ls) as [w0|] eqn:Hm; [|discriminate].
  intros Hr.
  destruct (mount_start ls w0 Hm) as (_ & D0 & W0 & N0).
  destruct (run_effects tr w0 w (mount_inv ls w0 Hm) Hr)
    as (l & L & D & W & N & _).
  rewrite L. unfold writes, navigations in *.
  rewrite !flat_map_app, !length_app, W0, N0. cbn [List.length].
  split; [now apply Forall_app|]. split; lia.
Qed.

Lemma session_effects_are_bounded_witness :
  session empty_storage [MouseDown (primary 940 740)] = Some dragging_world
  /\ Forall disciplined (log dragging_world)
  /\ (List.length (writes (log dragging_world)) <= 0)%nat
  /\ (List.length (navigations (log dragging_world)) <= 0)%nat.
Proof.
  split; [reflexivity|].
  exact (session_effects_are_bounded
           empty_storage [MouseDown (primary 940 740)] dragging_world eq_refl).
Defined.

(** X5. The component touches no key of [localStorage] but its own:
    through a whole session every other key reads as it did before the
    mount, and the quota of the store is unchanged. *)
Theorem other_storage_keys_are_untouched
        (ls : Storage) (tr : list Event) (w : World) (k : string) :
  session ls tr = Some w ->
  k <> terminalButtonPosition ->
  getItem (localStorage w) k = getItem ls k
  /\ quota (localStorage w) = quota ls.
Proof.
  unfold session. destruct (mount ls) as [w0|] eqn:Hm; [|discriminate].
  intros Hr Hk.
  destruct (mount_start ls w0 Hm) as (S0 & _).
  destruct (run_effects tr w0 w (mount_inv ls w0 Hm) Hr)
    as (l & _ & _ & _ & _ & Q & K).
  rewrite (K k Hk), Q, S0. auto.
Qed.

Lemma other_storage_keys_are_untouched_witness :
  session shared_storage [MouseDown (primary 940 740); WindowMouseUp]
  = Some released_on_shared_storage
  /\ "theme" <> terminalButtonPosition
  /\ getItem (localStorage released_on_shared_storage) "theme" = Some "dark"
  /\ quota (localStorage released_on_shared_storage) = 5000000%N.
Proof.
  assert (Hk : "theme" <> terminalButtonPosition) by discriminate.
  split; [reflexivity|]. split; [exact Hk|].
  exact (other_storage_keys_are_untouched shared_storage
           [MouseDown (primary 940 740); WindowMouseUp]
           released_on_shared_storage "theme" eq_refl Hk).
Defined.

(** ** A whole drag *)

Lemma drag_until_release_pending
      (w : World) (e : MouseEvent) (moves : list (Page * MouseEvent)) :
  Inv w -> mounted w = true -> has_coords (position (state w)) = true ->
  button e = 0 ->
  exists wb c,
    run w (MouseDown e :: moves_of moves) = Some wb
    /\ Inv wb /\ mounted wb = true /\ isDragging (state wb) = true
    /\ mousemove_listeners wb = [c] /\ mouseup_listeners wb = [c]
    /\ isDragging (captured c) = true
    /\ position (captured c) = position (state w)
    /\ (forall px py,
           num_prop (position (state w)) "x" = Some px ->
           num_prop (position (state w)) "y" = Some py ->
           initialPos (captured c) = {| x := clientX e - px; y := clientY e - py |})
    /\ log wb = (log w ++ [DefaultPrevented])%list
    /\ localStorage wb = localStorage w.
Proof.
  intros HI Hm Hc Hb.
  destruct (step_mouse_down w e HI Hm Hc Hb)
    as (wa & c & Sa & Ma & Ga & _ & La & Loga & _ & Ua & Gc & Pc & Ic).
  pose proof (step_inv _ _ _ HI Sa) as HIa.
  destruct (moves_keep_listener moves wa c HIa Ma Ga Ua)
    as (wb & Rb & HIb & Mb & Gb & Ub & Lb & Stb).
  exists wb, c. cbn [run]. rewrite Sa. fold (moves_of moves) in Rb.
  split; [exact Rb|].
  pose proof (inv_listeners wb HIb) as Hl. unfold listeners_of in Hl.
  rewrite Mb, Gb in Hl. cbn in Hl. destruct Hl as (c' & Emm & Emu & _).
  rewrite Ub in Emu. injection Emu as <-.
  rewrite Lb, Stb, Loga, La. auto 12.
Qed.

(** X6. Whatever the pointer did in between, the release of a drag
    calls [setItem] once with the position that the control had at the
    press, and navigates not at all; the drag is over and no listener
    is left.  When the write succeeds, a control mounted on the store
    afterwards starts at that position of the press.  This holds also for
    a press made while a drag is already going on. *)
Theorem release_persists_position_of_the_press
        (ls : Storage) (tr : list Event) (w : World) (e : MouseEvent)
        (moves : list (Page * MouseEvent)) :
  session ls tr = Some w ->
  mounted w = true ->
  has_coords (position (state w)) = true ->
  button e = 0 ->
  exists w',
    run w (MouseDown e :: moves_of moves ++ [WindowMouseUp])%list = Some w'
    /\ writes (effects_since w w') = [JSON_stringify (position (state w))]
    /\ navigations (effects_since w w') = []
    /\ isDragging (state w') = false
    /\ mousemove_listeners w' = [] /\ mouseup_listeners w' = []
    /\ (forall ls',
           setItem (localStorage w) terminalButtonPosition
                   (JSON_stringify (position (state w))) = Some ls' ->
           localStorage w' = ls'
           /\ forall px py,
               position (state w) = Obj_xy px py ->
               exists w'', mount ls' = Some w''
                           /\ position (state w'') = Obj_xy px py).
Proof.
  intros Hs Hm Hc Hb.
  pose proof (session_inv _ _ _ Hs) as HI.
  destruct (drag_until_release_pending w e moves HI Hm Hc Hb)
    as (wb & c & Rb & HIb & Mb & Gb & _ & Ub & _ & Pc & _ & Lb & Stb).
  destruct (step_mouse_up wb c HIb Mb Gb Ub)
    as (wc & Sc & _ & Gc & _ & Emm & Emu & Oc).
  exists wc. split.
  { change (MouseDown e :: moves_of moves ++ [WindowMouseUp])%list
      with ((MouseDown e :: moves_of moves) ++ [WindowMouseUp])%list.
    rewrite run_app, Rb. cbn [run]. now rewrite Sc. }
  unfold release_outcome in Oc. rewrite Pc, Stb, Lb in Oc.
  destruct (setItem (localStorage w) terminalButtonPosition
                    (JSON_stringify (position (state w)))) as [ls1|] eqn:E;
    destruct Oc as [St Lc]; rewrite <- app_assoc in Lc;
    rewrite (effects_since_app w wc _ Lc); cbn;
    repeat (split; [auto; fail|]).
  - intros ls' [= <-]. split; [exact St|].
    intros px py Hp. rewrite Hp in E.
    assert (El : load_effect ls1 = Some [setPosition (Obj_xy px py)]).
    { unfold load_effect, load_effect_with. rewrite (getItem_setItem _ _ _ _ E).
      rewrite JSON_parse_stringify_xy. now rewrite stringify_xy. }
    destruct (mount_of_load ls1 _ El) as (w2 & Hm2 & Hst & _).
    exists w2. rewrite Hst. auto.
  - intros ls' H. discriminate H.
Qed.

Lemma release_persists_position_of_the_press_witness :
  session empty_storage [] = Some idle_world
  /\ mounted idle_world = true
  /\ has_coords (position (state idle_world)) = true
  /\ button (primary 940 740) = 0
  /\ exists w',
      run idle_world first_drag = Some w'
      /\ writes (effects_since idle_world w') = [JSON_stringify (Obj_xy 0 0)]
      /\ navigations (effects_since idle_world w') = []
      /\ isDragging (state w') = false
      /\ mousemove_listeners w' = [] /\ mouseup_listeners w' = []
      /\ (forall ls',
             setItem empty_storage terminalButtonPosition
                     (JSON_stringify (Obj_xy 0 0)) = Some ls' ->
             localStorage w' = ls'
             /\ forall px py,
                 Obj_xy 0 0 = Obj_xy px py ->
                 exists w'', mount ls' = Some w''
                             /\ position (state w'') = Obj_xy px py).
Proof.
  split; [reflexivity|]. split; [reflexivity|]. split; [reflexivity|].
  split; [reflexivity|].
  exact (release_persists_position_of_the_press
           empty_storage [] idle_world (primary 940 740)
           [(page_1000x800, primary 990 790)]
           eq_refl eq_refl eq_refl eq_refl).
Defined.

(** X7. During a drag the control follows the pointer without drift:
    after a press at [e0] on a control at (px, py) and any moves, a
    move to [e] puts the control at (px, py) plus the displacement of
    the pointer since the press, clamped to the page of that move.  The
    moves in between leave no trace. *)
Theorem drag_follows_the_pointer
        (ls : Storage) (tr : list Event) (w : World) (e0 e : MouseEvent)
        (moves : list (Page * MouseEvent)) (pg : Page) (px py : Z) :
  session ls tr = Some w ->
  mounted w = true ->
  num_prop (position (state w)) "x" = Some px ->
  num_prop (position (state w)) "y" = Some py ->
  button e0 = 0 ->
  exists w',
    run w (MouseDown e0 :: moves_of moves ++ [WindowMouseMove pg e])%list = Some w'
    /\ isDragging (state w') = true
    /\ position (state w')
       = Obj_xy (Z.max 0 (Z.min (px + (clientX e - clientX e0)) (maxX pg)))
                (Z.max 0 (Z.min (py + (clientY e - clientY e0)) (maxY pg))).
Proof.
  intros Hs Hm Hx Hy Hb.
  pose proof (session_inv _ _ _ Hs) as HI.
  assert (Hc : has_coords (position (state w)) = true)
    by (unfold has_coords; now rewrite Hx, Hy).
  destruct (drag_until_release_pending w e0 moves HI Hm Hc Hb)
    as (wb & c & Rb & HIb & Mb & Gb & Emm & _ & Gc & _ & Ic & _).
  destruct (step_mouse_move wb c pg e HIb Mb Gb Emm)
    as (wc & v & Hh & Sc & _ & G' & P' & _).
  exists wc. split.
  { change (MouseDown e0 :: moves_of moves ++ [WindowMouseMove pg e])%list
      with ((MouseDown e0 :: moves_of moves) ++ [WindowMouseMove pg e])%list.
    rewrite run_app, Rb. cbn [run]. now rewrite Sc. }
  split; [exact G'|]. rewrite P'.
  unfold handleMouseMove in Hh. rewrite Gc, (Ic px py Hx Hy) in Hh.
  cbn [negb x y] in Hh. injection Hh as <-.
  unfold maxX, maxY. f_equal; f_equal; f_equal; lia.
Qed.

Lemma drag_follows_the_pointer_witness :
  session empty_storage [] = Some idle_world
  /\ mounted idle_world = true
  /\ num_prop (position (state idle_world)) "x" = Some 0
  /\ num_prop (position (state idle_world)) "y" = Some 0
  /\ button (primary 940 740) = 0
  /\ exists w',
      run idle_world
          [MouseDown (primary 940 740);
           WindowMouseMove page_1000x800 (primary 950 700);
           WindowMouseMove page_1000x800 (primary 990 790)] = Some w'
      /\ isDragging (state w') = true
      /\ position (state w') = Obj_xy 50 50.
Proof.
  split; [reflexivity|]. split; [reflexivity|]. split; [reflexivity|].
  split; [reflexivity|]. split; [reflexivity|].
  exact (drag_follows_the_pointer
           empty_storage [] idle_world (primary 940 740) (primary 990 790)
           [(page_1000x800, primary 950 700)] page_1000x800 0 0
           eq_refl eq_refl eq_refl eq_refl eq_refl).
Defined.

(** ** What the control shows *)

(** X8. What the control shows follows the drag: in every state of a
    session in which it is mounted, while the listeners of [window] are
    registered the cursor is [grabbing], the tooltip is the hint
    ["Drag to reposition"] and the control is not enlarged, even when
    hovered; while none is registered the cursor is [grab], the tooltip
    is the label, and the control is enlarged exactly when hovered. *)
Theorem appearance_follows_the_drag
        (t : string -> string) (label_key className : string)
        (ls : Storage) (tr : list Event) (w : World) :
  session ls tr = Some w ->
  mounted w = true ->
  has_coords (position (state w)) = true ->
  exists st,
    buttonStyle (state w) = Some st
    /\ (mousemove_listeners w <> [] ->
        cursor st = "grabbing"
        /\ tooltip_content t label_key (state w) = t "Drag to reposition"
        /\ button_className className (state w)
           = base_class ++ "scale-100" ++ " " ++ className)
    /\ (mousemove_listeners w = [] ->
        cursor st = "grab"
        /\ tooltip_content t label_key (state w) = t label_key
        /\ button_className className (state w)
           = base_class
               ++ (if isHovered (state w) then "scale-110" else "scale-100")
               ++ " " ++ className).
Proof.
  intros Hs Hm Hc.
  pose proof (session_inv _ _ _ Hs) as HI.
  pose proof (inv_listeners w HI) as Hl. unfold listeners_of in Hl.
  rewrite Hm in Hl. cbn [andb] in Hl.
  unfold buttonStyle, tooltip_content, button_className.
  unfold has_coords in Hc.
  destruct (num_prop (position (state w)) "x"); [|discriminate].
  destruct (num_prop (position (state w)) "y"); [|discriminate].
  eexists. split; [reflexivity|]. cbn [cursor].
  destruct (isDragging (state w)).
  - destruct Hl as (c & Emm & _). rewrite Emm, Bool.andb_false_r.
    split; [auto | intros H; discriminate H].
  - destruct Hl as [Emm _]. rewrite Emm, Bool.andb_true_r.
    split; [intros H; now contradiction H | auto].
Qed.

Lemma appearance_follows_the_drag_witness :
  session empty_storage [MouseDown (primary 940 740)] = Some dragging_world
  /\ mounted dragging_world = true
  /\ has_coords (position (state dragging_world)) = true
  /\ exists st,
      buttonStyle (state dragging_world) = Some st
      /\ (mousemove_listeners dragging_world <> [] ->
          cursor st = "grabbing"
          /\ tooltip_content (fun k => k) "Terminal" (state dragging_world)
             = "Drag to reposition"
          /\ button_className "" (state dragging_world)
             = base_class ++ "scale-100" ++ " " ++ "")
      /\ (mousemove_listeners dragging_world = [] ->
          cursor st = "grab"
          /\ tooltip_content (fun k => k) "Terminal" (state dragging_world)
             = "Terminal"
          /\ button_className "" (state dragging_world)
             = base_class
                 ++ (if isHovered (state dragging_world)
                     then "scale-110" else "scale-100")
                 ++ " " ++ "").
Proof.
  split; [reflexivity|]. split; [reflexivity|]. split; [reflexivity|].
  exact (appearance_follows_the_drag (fun k => k) "Terminal" ""
           empty_storage [MouseDown (primary 940 740)] dragging_world
           eq_refl eq_refl eq_refl).
Defined.

(** X9. Hovering and focus change nothing but the hover state: a
    pointer that enters or leaves the control, and focus or blur, set
    [isHovered] and leave the position, the drag and its anchor, the
    listeners of [window], the store and the log as they are, in the
    middle of a drag too. *)
Theorem hover_changes_only_the_hover_state
        (ls : Storage) (tr : list Event) (w : World) (ev : Event) (b : bool) :
  session ls tr = Some w ->
  mounted w = true ->
  has_coords (position (state w)) = true ->
  is_hover ev = Some b ->
  exists w',
    step w ev = Some w'
    /\ state w' = set_isHovered (state w) b
    /\ mousemove_listeners w' = mousemove_listeners w
    /\ mouseup_listeners w' = mouseup_listeners w
    /\ localStorage w' = localStorage w
    /\ log w' = log w.
Proof.
  intros Hs Hm Hc Hh.
  pose proof (session_inv _ _ _ Hs) as [Hd _ _ _].
  unfold step. rewrite Hm.
  destruct (buttonStyle (state w)) eqn:E;
    [|apply buttonStyle_coords in Hc; congruence].
  destruct ev; cbn in Hh; try discriminate; injection Hh as <-;
    cbn [exec]; rewrite commit_same by (cbn; exact Hd);
    eexists; (split; [reflexivity|]); cbn; auto.
Qed.

Lemma hover_changes_only_the_hover_state_witness :
  session empty_storage [MouseDown (primary 940 740)] = Some dragging_world
  /\ mounted dragging_world = true
  /\ has_coords (position (state dragging_world)) = true
  /\ is_hover MouseEnter = Some true
  /\ exists w',
      step dragging_world MouseEnter = Some w'
      /\ state w' = state hovered_dragging_world
      /\ mousemove_listeners w' = mousemove_listeners dragging_world
      /\ mouseup_listeners w' = mouseup_listeners dragging_world
      /\ localStorage w' = empty_storage
      /\ log w' = [DefaultPrevented].
Proof.
  split; [reflexivity|]. split; [reflexivity|]. split; [reflexivity|].
  split; [reflexivity|].
  exact (hover_changes_only_the_hover_state
           empty_storage [MouseDown (primary 940 740)] dragging_world
           MouseEnter true eq_refl eq_refl eq_refl eq_refl).
Defined.

(** ** Where the position can go *)

Lemma step_position (w w' : World) (ev : Event) :
  Inv w -> step w ev = Some w' ->
  position (state w') = position (state w)
  \/ (mounted w = true /\ isDragging (state w) = true
      /\ exists pg e,
          ev = WindowMouseMove pg e
          /\ position (state w')
             = Obj_xy (Z.max 0 (Z.min (clientX e - x (initialPos (state w))) (maxX pg)))
                      (Z.max 0 (Z.min (clientY e - y (initialPos (state w))) (maxY pg)))).
Proof.
  intros HI Hs.
  destruct (step_shape w w' ev HI Hs)
    as [[Hm ->] | [(Hm & -> & ->) | (Hm & Hc & acts & Ha & ->)]]; auto.
  rewrite (proj1 (commit_frame (exec w acts))).
  destruct (actions_state w ev acts Ha) as [_ [E | (pg & e & -> & Hg & E)]]; auto.
  right. split; [exact Hm|]. split; [exact Hg|]. eauto.
Qed.



Lemma run_inside (pg : Page) (tr : list Event) :
  forall w w',
    Inv w -> run w tr = Some w' -> moves_on pg tr ->
    inside pg (position (state w)) -> inside pg (position (state w')).
Proof.
  induction tr as [|ev tr IH]; intros w w' HI Hr Hp Hin; cbn in Hr.
  - now injection Hr as <-.
  - destruct (step w ev) as [w1|] eqn:Hs; [|discriminate].
    apply (IH w1 w' (step_inv _ _ _ HI Hs) Hr).
    + intros pg' e H. apply (Hp pg' e). now right.
    + destruct (step_position w w1 ev HI Hs)
        as [E | (_ & _ & pg' & e & -> & E)].
      * now rewrite E.
      * assert (pg' = pg) by (apply (Hp pg' e); now left). subst pg'.
        rewrite E. eexists _, _. split; [reflexivity|]. lia.
Qed.

(** X11. On a page whose size and whose control size do not change, the
    position never leaves [0, max(0, maxX)] x [0, max(0, maxY)] once it
    is inside: if the position after the mount is inside, so is the
    position after every sequence of events.  The default (0, 0) is
    inside on every page. *)
Theorem position_stays_inside_a_fixed_page
        (pg : Page) (ls : Storage) (tr : list Event) (w0 w : World) :
  mount ls = Some w0 ->
  run w0 tr = Some w ->
  moves_on pg tr ->
  inside pg (position (state w0)) ->
  inside pg (position (state w))
  /\ inside pg (position initial_state).
Proof.
  intros Hm Hr Hp Hin. split.
  - exact (run_inside pg tr w0 w (mount_inv ls w0 Hm) Hr Hp Hin).
  - exists 0, 0. split; [reflexivity|]. lia.
Qed.

Lemma position_stays_inside_a_fixed_page_witness :
  mount empty_storage = Some idle_world
  /\ moves_on page_1000x800 (first_drag ++ second_drag)%list
  /\ inside page_1000x800 (position (state idle_world))
  /\ forall w,
      run idle_world (first_drag ++ second_drag)%list = Some w ->
      inside page_1000x800 (position (state w)).
Proof.
  assert (Hp : moves_on page_1000x800 (first_drag ++ second_drag)%list).
  { intros pg' e H. cbn in H.
    repeat (destruct H as [H | H]; [try discriminate H; now injection H|]).
    contradiction. }
  assert (Hin : inside page_1000x800 (position (state idle_world))).
  { exists 0, 0. split; [reflexivity|]. cbn. lia. }
  split; [reflexivity|]. split; [exact Hp|]. split; [exact Hin|].
  intros w Hr.
  exact (proj1 (position_stays_inside_a_fixed_page
                  page_1000x800 empty_storage (first_drag ++ second_drag)%list
                  idle_world w eq_refl Hr Hp Hin)).
Defined.

Lemma run_non_negative (tr : list Event) :
  forall w w',
    Inv w -> run w tr = Some w' ->
    non_negative (position (state w)) -> non_negative (position (state w')).
Proof.
  induction tr as [|ev tr IH]; intros w w' HI Hr Hin; cbn in Hr.
  - now injection Hr as <-.
  - destruct (step w ev) as [w1|] eqn:Hs; [|discriminate].
    apply (IH w1 w' (step_inv _ _ _ HI Hs) Hr).
    destruct (step_position w w1 ev HI Hs)
      as [E | (_ & _ & pg' & e & -> & E)].
    + now rewrite E.
    + rewrite E. eexists _, _. split; [reflexivity|]. split; [reflexivity|]. lia.
Qed.

(** X12. Whatever the page does (resizes included), the coordinates of
    the position never become negative: if they are non-negative after
    the mount, they are non-negative after every sequence of events. *)
Theorem coordinates_never_become_negative
        (ls : Storage) (tr : list Event) (w0 w : World) :
  mount ls = Some w0 ->
  run w0 tr = Some w ->
  non_negative (position (state w0)) ->
  non_negative (position (state w)).
Proof.
  intros Hm Hr Hin.
  exact (run_non_negative tr w0 w (mount_inv ls w0 Hm) Hr Hin).
Qed.

Lemma coordinates_never_become_negative_witness :
  mount empty_storage = Some idle_world
  /\ run idle_world
         [MouseDown (primary 940 740);
          WindowMouseMove page_1000x800 (primary 990 790)] = Some moved_world
  /\ non_negative (position (state idle_world))
  /\ non_negative (position (state moved_world)).
Proof.
  assert (Hin : non_negative (position (state idle_world))).
  { exists 0, 0. cbn. repeat split; lia. }
  split; [reflexivity|]. split; [reflexivity|]. split; [exact Hin|].
  exact (coordinates_never_become_negative
           empty_storage
           [MouseDown (primary 940 740);
            WindowMouseMove page_1000x800 (primary 990 790)]
           idle_world moved_world eq_refl eq_refl Hin).
Defined.

(** ** After the component is gone *)

Lemma run_unmounted (tr : list Event) :
  forall w, Inv w -> mounted w = false -> run w tr = Some w.
Proof.
  induction tr as [|ev tr IH]; intros w HI Hm; cbn; [reflexivity|].
  destruct (step w ev) as [w1|] eqn:Hs.
  - destruct (step_shape w w1 ev HI Hs)
      as [[_ ->] | [(Hm' & _) | (Hm' & _)]]; try congruence.
    now apply IH.
  - exfalso. unfold step in Hs. rewrite Hm in Hs.
    destruct ev; discriminate Hs.
Qed.

(** X13. Once the component is unmounted nothing happens any more:
    whatever events follow, pointer moves and releases on [window]
    included, the world stays exactly as the unmount left it; no write,
    no navigation, no change of position. *)
Theorem nothing_happens_after_unmount
        (ls : Storage) (tr tr' : list Event) (w w1 : World) :
  session ls tr = Some w ->
  step w Unmount = Some w1 ->
  mounted w1 = false /\ run w1 tr' = Some w1.
Proof.
  intros Hs Hst.
  pose proof (session_inv _ _ _ Hs) as HI.
  pose proof (step_inv _ _ _ HI Hst) as HI1.
  assert (Hm : mounted w1 = false).
  { destruct (step_shape w w1 Unmount HI Hst)
      as [[Hm ->] | [(_ & _ & ->) | (_ & _ & acts & Ha & _)]].
    - exact Hm.
    - reflexivity.
    - inversion Ha. }
  split; [exact Hm|]. now apply run_unmounted.
Qed.

Lemma nothing_happens_after_unmount_witness :
  session empty_storage [MouseDown (primary 940 740)] = Some dragging_world
  /\ step dragging_world Unmount = Some unmounted_in_drag
  /\ mounted unmounted_in_drag = false
  /\ run unmounted_in_drag
         [WindowMouseMove page_1000x800 (primary 990 790); WindowMouseUp; Click]
     = Some unmounted_in_drag.
Proof.
  split; [reflexivity|]. split; [reflexivity|].
  exact (nothing_happens_after_unmount
           empty_storage [MouseDown (primary 940 740)]
           [WindowMouseMove page_1000x800 (primary 990 790); WindowMouseUp; Click]
           dragging_world unmounted_in_drag eq_refl eq_refl).
Defined.

(** ** The listeners of a drag *)

(** X14. The component never accumulates listeners: in every state of a
    session [window] holds at most one pointer-move and one pointer-up
    listener of the component, both of the same render, and they see
    the anchor of the current drag; presses repeated without a release
    replace the listeners. *)
Theorem at_most_one_listener_of_each_kind
        (ls : Storage) (tr : list Event) (w : World) :
  session ls tr = Some w ->
  (List.length (mousemove_listeners w) <= 1)%nat
  /\ mouseup_listeners w = mousemove_listeners w
  /\ forall c,
      In c (mousemove_listeners w) ->
      isDragging (captured c) = true
      /\ initialPos (captured c) = initialPos (state w).
Proof.
  intros Hs.
  pose proof (inv_listeners w (session_inv _ _ _ Hs)) as Hl.
  unfold listeners_of in Hl.
  destruct (mounted w && isDragging (state w)).
  - destruct Hl as (c & -> & -> & _ & Hg & Hp). cbn.
    split; [lia|]. split; [reflexivity|].
    intros c' [<- | []]. auto.
  - destruct Hl as [-> ->]. cbn. split; [lia|]. split; [reflexivity|].
    intros c' [].
Qed.

Lemma at_most_one_listener_of_each_kind_witness :
  session empty_storage [MouseDown (primary 940 740); MouseDown (primary 950 750)]
  = Some pressed_twice_world
  /\ (List.length (mousemove_listeners pressed_twice_world) <= 1)%nat
  /\ mouseup_listeners pressed_twice_world = mousemove_listeners pressed_twice_world.
Proof.
  split; [vm_compute; reflexivity|].
  pose proof (at_most_one_listener_of_each_kind
                empty_storage
                [MouseDown (primary 940 740); MouseDown (primary 950 750)]
                pressed_twice_world eq_refl) as (H1 & H2 & _).
  split; [exact H1 | exact H2].
Defined.

(** ** Keys that do not activate *)

(** X15. A key other than Enter and Space is ignored altogether: its
    default is not suppressed, nothing navigates, nothing is written,
    and the state and the listeners are as before. *)
Theorem other_keys_are_ignored
        (ls : Storage) (tr : list Event) (w : World) (key : string) :
  session ls tr = Some w ->
  mounted w = true ->
  has_coords (position (state w)) = true ->
  key <> "Enter" -> key <> " " ->
  exists w',
    step w (KeyDown key) = Some w'
    /\ state w' = state w
    /\ log w' = log w
    /\ localStorage w' = localStorage w
    /\ mousemove_listeners w' = mousemove_listeners w
    /\ mouseup_listeners w' = mouseup_listeners w.
Proof.
  intros Hs Hm Hc H1 H2.
  pose proof (session_inv _ _ _ Hs) as [Hd _ _ _].
  unfold step. rewrite Hm.
  destruct (buttonStyle (state w)) eqn:E;
    [|apply buttonStyle_coords in Hc; congruence].
  unfold handleKeyDown.
  apply String.eqb_neq in H1. apply String.eqb_neq in H2.
  rewrite H1, H2. cbn [orb exec].
  rewrite (commit_same w Hd). eexists. split; [reflexivity|]. cbn. auto.
Qed.

Lemma other_keys_are_ignored_witness :
  session empty_storage [] = Some idle_world
  /\ mounted idle_world = true
  /\ has_coords (position (state idle_world)) = true
  /\ "Tab" <> "Enter" /\ "Tab" <> " "
  /\ exists w',
      step idle_world (KeyDown "Tab") = Some w'
      /\ state w' = initial_state
      /\ log w' = []
      /\ localStorage w' = empty_storage
      /\ mousemove_listeners w' = []
      /\ mouseup_listeners w' = [].
Proof.
  assert (H1 : "Tab" <> "Enter") by discriminate.
  assert (H2 : "Tab" <> " ") by discriminate.
  split; [reflexivity|]. split; [reflexivity|]. split; [reflexivity|].
  split; [exact H1|]. split; [exact H2|].
  exact (other_keys_are_ignored empty_storage [] idle_world "Tab"
           eq_refl eq_refl eq_refl H1 H2).
Defined.

(** ** A restored value that the render cannot show *)

(** X16. The load effect adopts a stored value on which the render
    throws, such as [null]: the [TypeError] of that render leaves the
    component, which is removed with no listener on [window] and the
    store as it was, and no event does anything afterwards. *)
Theorem unrenderable_restored_position_removes_the_control
        (parse : string -> parse_result) (ls : Storage) (s : string) (v : jsval)
        (tr : list Event) :
  getItem ls terminalButtonPosition = Some s -> s <> "" ->
  parse s = Parsed v ->
  render_throws (set_position initial_state v) = true ->
  exists w,
    mount_with parse ls = Some w
    /\ mounted w = false
    /\ log w = [Uncaught TypeError]
    /\ localStorage w = ls
    /\ mousemove_listeners w = [] /\ mouseup_listeners w = []
    /\ run w tr = Some w.
Proof.
  intros Hg Hne Hp Hr.
  assert (E : load_effect_with parse ls = Some [setPosition v]).
  { unfold load_effect_with. rewrite Hg.
    apply length_zero_empty in Hne. now rewrite Hne, Hp. }
  destruct (mount_with_of_load parse ls _ E) as (w & Hm & _).
  exists w. split; [exact Hm|].
  pose proof (mount_with_inv parse ls w Hm) as HI.
  unfold mount_with in Hm. rewrite E in Hm.
  cbn [exec] in Hm. unfold listener_effect in Hm.
  cbn [captured initial_state isDragging state with_state] in Hm.
  rewrite Hr in Hm. injection Hm as <-.
  split; [reflexivity|]. split; [reflexivity|]. split; [reflexivity|].
  split; [reflexivity|]. split; [reflexivity|].
  now apply run_unmounted.
Qed.

Lemma unrenderable_restored_position_removes_the_control_witness :
  getItem (storage_with "null") terminalButtonPosition = Some "null"
  /\ "null" <> ""
  /\ JSON_parse "null" = Parsed JNull
  /\ render_throws (set_position initial_state JNull) = true
  /\ exists w,
      mount (storage_with "null") = Some w
      /\ mounted w = false
      /\ log w = [Uncaught TypeError]
      /\ localStorage w = storage_with "null"
      /\ mousemove_listeners w = [] /\ mouseup_listeners w = []
      /\ run w [WindowMouseMove page_1000x800 (primary 990 790); WindowMouseUp]
         = Some w.
Proof.
  assert (Hne : "null" <> "") by discriminate.
  split; [reflexivity|]. split; [exact Hne|]. split; [reflexivity|].
  split; [reflexivity|].
  exact (unrenderable_restored_position_removes_the_control
           JSON_parse (storage_with "null") "null" JNull
           [WindowMouseMove page_1000x800 (primary 990 790); WindowMouseUp]
           eq_refl Hne eq_refl eq_refl).
Defined.
